(** * Order aggregate and payment use case: a shallow embedding

    The development follows the layers of the repository:
    - [domain/domain_exceptions.py], [domain/money.py],
      [domain/order_status.py], [domain/order_aggregate.py];
    - [application/interfaces.py], [application/pay_order_usecase.py];
    - [infrastructure/order_repository.py],
      [infrastructure/payment_gateway.py].

    Modelling conventions.
    - A Python [int] is a [Z].  A [Decimal] is the rational it denotes, a
      canonical [Qc], so that Leibniz equality is the numeric equality that
      [Decimal.__eq__] implements.  [+] and [*] are the exact operations:
      they are what the [decimal] module returns whenever the exact result
      fits its context (28 significant digits, exponent in range), which
      [context_exact] states; where the module would round or signal
      [Overflow], and for NaN and infinities, the model says nothing, and
      the statements about computed amounts carry the hypothesis that the
      results fit.  A [float] in [0, 1] is the rational it denotes as
      well.
    - A [UUID] is its canonical text, so [str(uuid)] is the identity.
    - A method of a mutable object is a state transformer that may raise:
      [M S A = S -> result A * S].  The state that comes back with an
      exception is the state the object was left in when it was raised.
    - Exceptions are the classes the sources raise and catch; every class
      modelled derives from Python's [Exception].
    - [isinstance] guards on argument types ([TypeError] in [money.py]) are
      discharged by typing.
    - [datetime.now()] and the [random] module are read from an explicit
      ambient record. *)

From stdpp Require Import base numbers strings list gmap.
From Stdlib Require Import QArith Qcanon.

Local Open Scope Z_scope.

(** ** Exceptions ([domain/domain_exceptions.py] and the builtins used) *)

Inductive ExcClass : Type :=
  | Exception
  | ValueError
  | DomainException
  | EmptyOrderError
  | OrderAlreadyPaidError
  | OrderCannotBeModifiedError
  | InvalidOrderLineError.

(** The direct base class, as the [class X(Base)] headers declare it;
    [None] for [Exception], the root of the modelled hierarchy. *)
Definition base_class (c : ExcClass) : option ExcClass :=
  match c with
  | Exception => None
  | ValueError => Some Exception
  | DomainException => Some Exception
  | EmptyOrderError => Some DomainException
  | OrderAlreadyPaidError => Some DomainException
  | OrderCannotBeModifiedError => Some DomainException
  | InvalidOrderLineError => Some DomainException
  end.

Global Instance ExcClass_eq_dec : EqDecision ExcClass.
Proof. solve_decision. Defined.

(** [issubclass c d], by walking up the (depth at most two) base chain. *)
Fixpoint issubclass_fuel (fuel : nat) (c d : ExcClass) : bool :=
  if bool_decide (c = d) then true
  else match fuel, base_class c with
       | S fuel', Some b => issubclass_fuel fuel' b d
       | _, _ => false
       end.

Definition issubclass (c d : ExcClass) : bool := issubclass_fuel 3 c d.

Record Exn : Type := Raise { exc_class : ExcClass; exc_msg : string }.

(** [isinstance(e, cls)] and [str(e)] for an exception built from one
    message argument. *)
Definition isinstance (e : Exn) (cls : ExcClass) : bool :=
  issubclass (exc_class e) cls.

Definition str_exc (e : Exn) : string := exc_msg e.

Inductive result (A : Type) : Type :=
  | Ok (a : A)
  | Err (e : Exn).
Arguments Ok {A} a.
Arguments Err {A} e.

(** ** Stateful computations that may raise *)

Definition M (S A : Type) : Type := S -> result A * S.

Definition ret {S A} (a : A) : M S A := fun s => (Ok a, s).

Definition raise {S A} (e : Exn) : M S A := fun s => (Err e, s).

Definition bind {S A B} (m : M S A) (k : A -> M S B) : M S B :=
  fun s => match m s with
           | (Ok a, s') => k a s'
           | (Err e, s') => (Err e, s')
           end.

Definition get {S} : M S S := fun s => (Ok s, s).

Definition modify {S} (f : S -> S) : M S unit := fun s => (Ok tt, f s).

(** A pure computation that may raise, run inside a method. *)
Definition lift {S A} (r : result A) : M S A := fun s => (r, s).

Declare Scope m_scope.
Delimit Scope m_scope with M.
Notation "x <- m ;; k" := (bind m (fun x => k))
  (at level 100, m at next level, right associativity) : m_scope.
Notation "m ;;; k" := (bind m (fun _ => k))
  (at level 100, right associativity) : m_scope.

(** ** Money ([domain/money.py]) *)

Abbreviation Decimal := Qc.

Definition Decimal_of_int (n : Z) : Decimal := Qc_of_Z n.

Definition Decimal_ltb (x y : Decimal) : bool := bool_decide (x < y)%Qc.
Definition Decimal_leb (x y : Decimal) : bool := bool_decide (x ≤ y)%Qc.

Record Money : Type := mkMoney { amount : Decimal; currency : string }.

(** [Money(amount, currency)]: the dataclass constructor followed by
    [__post_init__]. *)
Definition Money_init (a : Decimal) (c : string) : result Money :=
  if Decimal_ltb a 0%Qc
  then Err (Raise ValueError "Amount cannot be negative")
  else Ok (mkMoney a c).

(** [Money.__add__]; the sum is the exact one, which is the sum of the
    [decimal] module when it fits the context. *)
Definition Money_add (self other : Money) : result Money :=
  if negb (bool_decide (currency self = currency other))
  then Err (Raise ValueError
              ("Cannot add different currencies: " +:+ currency self
               +:+ " and " +:+ currency other))
  else Money_init (amount self + amount other)%Qc (currency self).

(** [Money.__mul__]; the product is the exact one, which is the product
    of the [decimal] module when it fits the context. *)
Definition Money_mul (self : Money) (quantity : Z) : result Money :=
  Money_init (amount self * Decimal_of_int quantity)%Qc (currency self).

(** [Money.__eq__] *)
Definition Money_eq (self other : Money) : bool :=
  bool_decide (amount self = amount other)
  && bool_decide (currency self = currency other).

(** ** Order status ([domain/order_status.py]) *)

Inductive OrderStatus : Type := PENDING | PAID | CANCELLED.

Global Instance OrderStatus_eq_dec : EqDecision OrderStatus.
Proof. solve_decision. Defined.

(** ** Order lines ([domain/order_aggregate.py], class [OrderLine]) *)

Definition UUID : Type := string.
Definition datetime : Type := Z.

Record OrderLine : Type := mkOrderLine {
  product_id : UUID;
  product_name : string;
  price : Money;
  quantity : Z
}.

(** [OrderLine(...)]: the dataclass constructor followed by
    [__post_init__]. *)
Definition OrderLine_init (pid : UUID) (name : string) (p : Money) (q : Z)
  : result OrderLine :=
  if q <=? 0
  then Err (Raise InvalidOrderLineError "Quantity must be positive")
  else if Decimal_leb (amount p) 0%Qc
  then Err (Raise InvalidOrderLineError "Price must be positive")
  else Ok (mkOrderLine pid name p q).

(** [OrderLine.subtotal] *)
Definition subtotal (l : OrderLine) : result Money :=
  Money_mul (price l) (quantity l).

Definition set_quantity (q : Z) (l : OrderLine) : OrderLine :=
  mkOrderLine (product_id l) (product_name l) (price l) q.

(** ** The Order aggregate ([domain/order_aggregate.py], class [Order]) *)

Record Order : Type := mkOrder {
  id : UUID;
  customer_id : UUID;
  lines : list OrderLine;
  status : OrderStatus;
  created_at : datetime;
  paid_at : option datetime;
  _version : Z
}.

(** [Order()] with the values its default factories drew. *)
Definition Order_init (oid cid : UUID) (now : datetime) : Order :=
  mkOrder oid cid [] PENDING now None 0.

Definition set_lines (ls : list OrderLine) (o : Order) : Order :=
  mkOrder (id o) (customer_id o) ls (status o) (created_at o) (paid_at o)
          (_version o).

Definition set_status (st : OrderStatus) (o : Order) : Order :=
  mkOrder (id o) (customer_id o) (lines o) st (created_at o) (paid_at o)
          (_version o).

Definition set_paid_at (t : datetime) (o : Order) : Order :=
  mkOrder (id o) (customer_id o) (lines o) (status o) (created_at o) (Some t)
          (_version o).

(** [self._version += 1] *)
Definition bump_version (o : Order) : Order :=
  mkOrder (id o) (customer_id o) (lines o) (status o) (created_at o)
          (paid_at o) (_version o + 1).

Local Open Scope m_scope.

(** [Order._check_modifiable] *)
Definition _check_modifiable : M Order unit :=
  o <- get ;;
  if bool_decide (status o = PAID)
  then raise (Raise OrderCannotBeModifiedError "Cannot modify paid order")
  else ret tt.

(** The loop [for line in self.lines: if line.product_id == product_id: ...
    return] of [add_line] and [update_quantity]: the lines with [f] applied
    to the first one whose product id matches, or [None] when the loop runs
    to its end. *)
Fixpoint update_first (pid : UUID) (f : OrderLine -> OrderLine)
    (ls : list OrderLine) : option (list OrderLine) :=
  match ls with
  | [] => None
  | l :: rest =>
      if bool_decide (product_id l = pid) then Some (f l :: rest)
      else option_map (cons l) (update_first pid f rest)
  end.

(** [Order.add_line] *)
Definition add_line (pid : UUID) (name : string) (p : Money) (q : Z)
  : M Order unit :=
  _check_modifiable ;;;
  o <- get ;;
  match update_first pid (fun l => set_quantity (quantity l + q) l) (lines o)
  with
  | Some ls' => modify (set_lines ls') ;;; modify bump_version
  | None =>
      line <- lift (OrderLine_init pid name p q) ;;
      modify (fun o => set_lines (lines o ++ [line]) o) ;;;
      modify bump_version
  end.

(** [Order.remove_line] *)
Definition remove_line (pid : UUID) : M Order unit :=
  _check_modifiable ;;;
  o <- get ;;
  let initial_length := length (lines o) in
  modify (set_lines
            (filter (fun l => product_id l ≠ pid) (lines o))) ;;;
  o' <- get ;;
  if negb (bool_decide (length (lines o') = initial_length))
  then modify bump_version
  else ret tt.

(** [Order.update_quantity] *)
Definition update_quantity (pid : UUID) (q : Z) : M Order unit :=
  _check_modifiable ;;;
  o <- get ;;
  match update_first pid (set_quantity q) (lines o) with
  | Some ls' =>
      (if q <=? 0 then remove_line pid else modify (set_lines ls')) ;;;
      modify bump_version
  | None =>
      raise (Raise ValueError ("Product " +:+ pid +:+ " not found in order"))
  end.

(** [Order.clear_lines] *)
Definition clear_lines : M Order unit :=
  _check_modifiable ;;;
  modify (set_lines []) ;;;
  modify bump_version.

(** The loop of [Order.total]: [total = total + line.subtotal]. *)
Fixpoint total_loop (acc : Money) (ls : list OrderLine) : result Money :=
  match ls with
  | [] => Ok acc
  | l :: rest =>
      match subtotal l with
      | Err e => Err e
      | Ok s =>
          match Money_add acc s with
          | Err e => Err e
          | Ok acc' => total_loop acc' rest
          end
      end
  end.

(** [Order.total] *)
Definition total (o : Order) : result Money :=
  match lines o with
  | [] => Money_init 0%Qc "USD"
  | l0 :: _ =>
      match Money_init 0%Qc (currency (price l0)) with
      | Err e => Err e
      | Ok zero => total_loop zero (lines o)
      end
  end.

(** [Order.pay]; [now] is what [datetime.now()] returns when it is read. *)
Definition pay (now : datetime) : M Order unit :=
  o <- get ;;
  if bool_decide (lines o = [])
  then raise (Raise EmptyOrderError "Cannot pay empty order")
  else if bool_decide (status o = PAID)
  then raise (Raise OrderAlreadyPaidError "Order is already paid")
  else
    modify (set_status PAID) ;;;
    modify (set_paid_at now) ;;;
    modify bump_version.

(** [Order.cancel] *)
Definition cancel : M Order unit :=
  _check_modifiable ;;;
  modify (set_status CANCELLED) ;;;
  modify bump_version.

(** [Order.is_paid], [Order.line_count] *)
Definition is_paid (o : Order) : bool := bool_decide (status o = PAID).
Definition line_count (o : Order) : nat := length (lines o).

(** ** Sequences of calls on one order *)

(** The public operations of [Order] that change it. *)
Inductive Op : Type :=
  | AddLine (pid : UUID) (name : string) (p : Money) (q : Z)
  | RemoveLine (pid : UUID)
  | UpdateQuantity (pid : UUID) (q : Z)
  | ClearLines
  | Pay (now : datetime)
  | Cancel.

Definition run_op (op : Op) : M Order unit :=
  match op with
  | AddLine pid name p q => add_line pid name p q
  | RemoveLine pid => remove_line pid
  | UpdateQuantity pid q => update_quantity pid q
  | ClearLines => clear_lines
  | Pay now => pay now
  | Cancel => cancel
  end.

(** The order after a call, whether it returned or raised. *)
Definition step (op : Op) (o : Order) : Order := snd (run_op op o).

Definition run_ops (ops : list Op) (o : Order) : Order :=
  foldl (fun o op => step op o) o ops.

(** The orders a client can obtain from [Order()] through the operations. *)
Inductive reachable : Order -> Prop :=
  | reachable_init oid cid now : reachable (Order_init oid cid now)
  | reachable_step op o : reachable o -> reachable (step op o).

(** ** Application layer ([application/interfaces.py],
       [application/pay_order_usecase.py]) *)

(** Orders are mutable objects handed around by reference: the heap maps a
    reference to the current state of the object it denotes. *)
Definition loc : Type := positive.
Abbreviation Heap := (gmap loc Order).

(** What [datetime.now()] reads, and the generator of the [random] module:
    the value the [n]-th draw returns, for [random.random()] and for the ten
    characters of [random.choices], and the number of draws made so far. *)
Record Ambient : Type := mkAmbient {
  now : datetime;
  random_random : nat -> Qc;
  random_choices : nat -> string;
  draws : nat
}.

Definition next_draw (a : Ambient) : Ambient :=
  mkAmbient (now a) (random_random a) (random_choices a) (S (draws a)).

(** [OrderRepository]: the two abstract methods.  An implementation acts on
    its own state and on the heap of orders, and may raise. *)
Class OrderRepository (R : Type) : Type := {
  get_by_id : UUID -> M (Heap * R) (option loc);
  save : loc -> M (Heap * R) unit
}.

(** [PaymentGateway]: the abstract method.  [Money] is an immutable value,
    so it is passed by value. *)
Class PaymentGateway (G : Type) : Type := {
  charge : UUID -> Money -> M (Ambient * G) string
}.

(** [PaymentResult] *)
Record PaymentResult : Type := mkPaymentResult {
  success : bool;
  order_id : option UUID;
  transaction_id : option string;
  error : option string
}.

(** The calls [execute] makes on its two collaborators, in order.  The log
    is ghost state: it records, it is never read by the code. *)
Inductive Call : Type :=
  | CallGetById (oid : UUID)
  | CallCharge (oid : UUID) (amt : Money)
  | CallSave (order : loc).

Record World (R G : Type) : Type := mkWorld {
  ambient : Ambient;
  heap : Heap;
  order_repository : R;
  payment_gateway : G;
  calls : list Call
}.
Arguments mkWorld {R G}.
Arguments ambient {R G}.
Arguments heap {R G}.
Arguments order_repository {R G}.
Arguments payment_gateway {R G}.
Arguments calls {R G}.

Section UseCase.
Context {R G : Type} `{!OrderRepository R} `{!PaymentGateway G}.

Definition log_call (c : Call) : M (World R G) unit :=
  modify (fun w => mkWorld (ambient w) (heap w) (order_repository w)
                           (payment_gateway w) (calls w ++ [c])).

(** A method call on [self.order_repository]. *)
Definition on_repository {A} (m : M (Heap * R) A) : M (World R G) A :=
  fun w =>
    let '(r, (h', repo')) := m (heap w, order_repository w) in
    (r, mkWorld (ambient w) h' repo' (payment_gateway w) (calls w)).

(** A method call on [self.payment_gateway]. *)
Definition on_gateway {A} (m : M (Ambient * G) A) : M (World R G) A :=
  fun w =>
    let '(r, (a', g')) := m (ambient w, payment_gateway w) in
    (r, mkWorld a' (heap w) (order_repository w) g' (calls w)).

(** A method call on the order a reference denotes.  A reference obtained
    from a repository denotes an object; the other branch is there to make
    the function total. *)
Definition on_order {A} (l : loc) (m : M Order A) : M (World R G) A :=
  fun w =>
    match heap w !! l with
    | Some o =>
        let '(r, o') := m o in
        (r, mkWorld (ambient w) (<[l := o']> (heap w)) (order_repository w)
                    (payment_gateway w) (calls w))
    | None => (Err (Raise Exception "dangling reference"), w)
    end.

(** The body of the [try] block of [PayOrderUseCase.execute]. *)
Definition execute_try (oid : UUID) : M (World R G) PaymentResult :=
  log_call (CallGetById oid) ;;;
  order <- on_repository (get_by_id oid) ;;
  match order with
  | None =>
      ret (mkPaymentResult false (Some oid) None
             (Some ("Order " +:+ oid +:+ " not found")))
  | Some l =>
      w <- get ;;
      on_order l (pay (now (ambient w))) ;;;
      amt <- on_order l (o <- get ;; lift (total o)) ;;
      log_call (CallCharge oid amt) ;;;
      txn <- on_gateway (charge oid amt) ;;
      log_call (CallSave l) ;;;
      on_repository (save l) ;;;
      ret (mkPaymentResult true (Some oid) (Some txn) None)
  end.

(** The two [except] clauses, tried in order. *)
Definition execute_except (oid : UUID) (e : Exn) : PaymentResult :=
  if isinstance e DomainException
  then mkPaymentResult false (Some oid) None (Some (str_exc e))
  else mkPaymentResult false (Some oid) None
         (Some ("Payment processing error: " +:+ str_exc e)).

(** [PayOrderUseCase.execute] *)
Definition execute (oid : UUID) (w : World R G) : PaymentResult * World R G :=
  match execute_try oid w with
  | (Ok res, w') => (res, w')
  | (Err e, w') => (execute_except oid e, w')
  end.
End UseCase.

(** ** Infrastructure ([infrastructure/order_repository.py],
       [infrastructure/payment_gateway.py]) *)

(** [InMemoryOrderRepository]: the dict holds references. *)
Record InMemoryOrderRepository : Type := mkInMemoryOrderRepository {
  _orders : gmap UUID loc
}.

(** An [Order] object is always truthy, so [if order:] is the test for a
    present key; the object itself is returned, there is no copy. *)
Definition InMemory_get_by_id (oid : UUID)
  : M (Heap * InMemoryOrderRepository) (option loc) :=
  s <- get ;;
  ret (_orders (snd s) !! oid).

Definition InMemory_save (order : loc) : M (Heap * InMemoryOrderRepository) unit :=
  s <- get ;;
  match fst s !! order with
  | Some o =>
      modify (fun s => (fst s,
                        mkInMemoryOrderRepository (<[id o := order]> (_orders (snd s)))))
  | None => raise (Raise Exception "dangling reference")
  end.

Global Instance InMemoryOrderRepository_repo
  : OrderRepository InMemoryOrderRepository :=
  {| get_by_id := InMemory_get_by_id; save := InMemory_save |}.

(** [TransactionRecord] *)
Record TransactionRecord : Type := mkTransactionRecord {
  tx_order_id : UUID;
  tx_amount : Money;
  tx_transaction_id : string;
  tx_timestamp : datetime;
  tx_status : string
}.

Definition TransactionRecord_init (oid : UUID) (amt : Money) (txn : string)
    (t : datetime) : TransactionRecord :=
  mkTransactionRecord oid amt txn t "completed".

(** [FakePaymentGateway] *)
Record FakePaymentGateway : Type := mkFakePaymentGateway {
  success_rate : Qc;
  simulate_failure : bool;
  transactions : list TransactionRecord;
  failures_count : Z
}.

Definition FakePaymentGateway_init (rate : Qc) (fail : bool)
  : FakePaymentGateway :=
  mkFakePaymentGateway rate fail [] 0.

(** [random.random()] *)
Definition random_draw : M (Ambient * FakePaymentGateway) Qc :=
  s <- get ;;
  modify (fun s => (next_draw (fst s), snd s)) ;;;
  ret (random_random (fst s) (draws (fst s))).

(** [FakePaymentGateway._generate_transaction_id] *)
Definition _generate_transaction_id : M (Ambient * FakePaymentGateway) string :=
  s <- get ;;
  modify (fun s => (next_draw (fst s), snd s)) ;;;
  ret ("TXN" +:+ "_" +:+ random_choices (fst s) (draws (fst s))).

(** [FakePaymentGateway.charge]; [and] draws the random number only when
    [simulate_failure] is set. *)
Definition Fake_charge (oid : UUID) (amt : Money)
  : M (Ambient * FakePaymentGateway) string :=
  s <- get ;;
  declined <- (if simulate_failure (snd s)
               then x <- random_draw ;;
                    ret (bool_decide (success_rate (snd s) < x)%Qc)
               else ret false) ;;
  if declined : bool
  then
    modify (fun s => (fst s,
              mkFakePaymentGateway (success_rate (snd s)) (simulate_failure (snd s))
                (transactions (snd s)) (failures_count (snd s) + 1))) ;;;
    raise (Raise Exception
             ("Payment gateway declined transaction for order " +:+ oid))
  else
    txn <- _generate_transaction_id ;;
    modify (fun s => (fst s,
              mkFakePaymentGateway (success_rate (snd s)) (simulate_failure (snd s))
                (transactions (snd s)
                   ++ [TransactionRecord_init oid amt txn (now (fst s))])
                (failures_count (snd s)))) ;;;
    ret txn.

Global Instance FakePaymentGateway_gateway : PaymentGateway FakePaymentGateway :=
  {| charge := Fake_charge |}.

(** ** Sample data, after [tests/test_order_domain.py] and
       [tests/test_payment_usecase.py] *)

Definition dec (n d : Z) : Decimal := (Qc_of_Z n / Qc_of_Z d)%Qc.

Definition usd (n d : Z) : Money := mkMoney (dec n d) "USD".
Definition eur (n d : Z) : Money := mkMoney (dec n d) "EUR".

Definition sample_ambient : Ambient :=
  mkAmbient 1000 (fun _ => dec 1 2) (fun _ => "A1B2C3D4E5") 0.

Definition fresh_order : Order := Order_init "order-1" "customer-1" 0.

(** [setUp] of the use-case tests: an order with two lines, saved. *)
Definition sample_order : Order :=
  run_ops [AddLine "p1" "Laptop" (usd 99999 100) 1;
           AddLine "p2" "Mouse" (usd 2999 100) 2] fresh_order.

Definition sample_world (g : FakePaymentGateway)
  : World InMemoryOrderRepository FakePaymentGateway :=
  mkWorld sample_ambient {[ 1%positive := sample_order ]}
          (mkInMemoryOrderRepository {[ "order-1" := 1%positive ]}) g [].

(** ** Vocabulary of the statements, and more sample data *)

Definition cancelled_order : Order :=
  run_ops [AddLine "p1" "Laptop" (usd 99999 100) 1; Cancel] fresh_order.

Definition paid_order : Order :=
  run_ops [AddLine "p1" "Laptop" (usd 99999 100) 1; Pay 7] fresh_order.

Definition one_line_order : Order :=
  run_ops [AddLine "p1" "Laptop" (usd 99999 100) 1] fresh_order.

(** An order built directly in Paid status with no lines: the emptiness
    guard answers first. *)
Definition empty_paid_order : Order :=
  mkOrder "order-2" "customer-1" [] PAID 0 (Some 1) 1.

(** The exception a paid order answers each operation with. *)
Definition rejection (op : Op) : Exn :=
  match op with
  | Pay _ => Raise OrderAlreadyPaidError "Order is already paid"
  | _ => Raise OrderCannotBeModifiedError "Cannot modify paid order"
  end.

(** The product ids of the lines, in order. *)
Definition product_ids (o : Order) : list UUID := product_id <$> lines o.

(** The invariants [OrderLine.__post_init__] establishes. *)
Definition line_valid (l : OrderLine) : Prop :=
  0 < quantity l /\ (0 < amount (price l))%Qc.

(** [price * quantity] of one line, as a product of rationals. *)
Definition subtotal_amount (l : OrderLine) : Decimal :=
  (amount (price l) * Qc_of_Z (quantity l))%Qc.

(** The sum of the subtotals, as a plain sum of rationals. *)
Definition sum_of_subtotals (ls : list OrderLine) : Decimal :=
  foldr Qcplus 0%Qc (subtotal_amount <$> ls).

(** [units] at [k] decimal places: [units / 10^k]. *)
Definition at_scale (k units : Z) : Decimal :=
  (Qc_of_Z units / Qc_of_Z (10 ^ k))%Qc.

(** A value the default context of the [decimal] module holds as it is: a
    coefficient of at most 28 digits at no more than 999999 decimal
    places.  An operation whose exact result is such a value returns it
    unrounded. *)
Definition context_exact (x : Decimal) : Prop :=
  exists k units : Z,
    0 <= k <= 999999 /\ Z.abs units < 10 ^ 28 /\ x = at_scale k units.

(** Amounts that are whole, non-negative numbers of units at a common
    number [k] of decimal places and add up to less than [10^28] units:
    every sum of some of them, in any order, is [context_exact]. *)
Definition sum_within_precision (xs : list Decimal) : Prop :=
  exists k : Z,
    0 <= k <= 999999
    /\ Forall (fun x => exists u : Z, 0 <= u /\ x = at_scale k u) xs
    /\ (foldr Qcplus 0 xs < at_scale k (10 ^ 28))%Qc.

(** The subtotals of the lines are such amounts. *)
Definition within_precision (ls : list OrderLine) : Prop :=
  sum_within_precision (subtotal_amount <$> ls).

(** The currency of the first line that is not in currency [c]. *)
Fixpoint first_foreign (c : string) (ls : list OrderLine) : option string :=
  match ls with
  | [] => None
  | l :: rest =>
      if bool_decide (currency (price l) = c) then first_foreign c rest
      else Some (currency (price l))
  end.

Definition swapped_order : Order :=
  run_ops [AddLine "p2" "Mouse" (usd 2999 100) 2;
           AddLine "p1" "Laptop" (usd 99999 100) 1] fresh_order.

Definition mixed_order : Order :=
  run_ops [AddLine "p1" "Laptop" (usd 99999 100) 1;
           AddLine "p3" "Cable" (eur 500 100) 1] fresh_order.

(** The method a logged call went to. *)
Definition call_name (c : Call) : string :=
  match c with
  | CallGetById _ => "get_by_id"
  | CallCharge _ _ => "charge"
  | CallSave _ => "save"
  end.

(** The store of [test_payment_empty_order]: a new order, saved. *)
Definition empty_world
  : World InMemoryOrderRepository FakePaymentGateway :=
  mkWorld sample_ambient {[ 1%positive := fresh_order ]}
          (mkInMemoryOrderRepository {[ "order-1" := 1%positive ]})
          (FakePaymentGateway_init 1 false) [].

(** An implementation of [OrderRepository] that is not in the repository:
    it reads like the in-memory one, and its [save] raises the exception it
    was built with.  It stands for a store that refuses a write, to
    exercise the handlers of [execute] on the [save] path. *)
Record RejectingRepository : Type := mkRejectingRepository {
  rejecting_orders : gmap UUID loc;
  rejecting_error : Exn
}.

Definition Rejecting_get_by_id (oid : UUID)
  : M (Heap * RejectingRepository) (option loc) :=
  s <- get ;;
  ret (rejecting_orders (snd s) !! oid).

Definition Rejecting_save (order : loc) : M (Heap * RejectingRepository) unit :=
  s <- get ;;
  raise (rejecting_error (snd s)).

Global Instance RejectingRepository_repo : OrderRepository RejectingRepository :=
  {| get_by_id := Rejecting_get_by_id; save := Rejecting_save |}.

Definition rejecting_world (e : Exn)
  : World RejectingRepository FakePaymentGateway :=
  mkWorld sample_ambient {[ 1%positive := sample_order ]}
          (mkRejectingRepository {[ "order-1" := 1%positive ]} e)
          (FakePaymentGateway_init 1 false) [].

(** The gateway of [test_payment_gateway_failure]. *)
Definition declining_gateway : FakePaymentGateway :=
  FakePaymentGateway_init 0 true.

(** ** More of the sources *)

(** [OrderLine.__eq__] *)
Definition OrderLine_eq (self other : OrderLine) : bool :=
  bool_decide (product_id self = product_id other)
  && bool_decide (product_name self = product_name other)
  && Money_eq (price self) (price other)
  && bool_decide (quantity self = quantity other).

(** [InMemoryOrderRepository.delete] *)
Definition InMemory_delete (oid : UUID)
  : M (Heap * InMemoryOrderRepository) bool :=
  s <- get ;;
  if bool_decide (is_Some (_orders (snd s) !! oid))
  then
    modify (fun s => (fst s,
                      mkInMemoryOrderRepository (delete oid (_orders (snd s))))) ;;;
    ret true
  else ret false.

(** [InMemoryOrderRepository.clear] *)
Definition InMemory_clear : M (Heap * InMemoryOrderRepository) unit :=
  modify (fun s => (fst s, mkInMemoryOrderRepository ∅)).

(** [InMemoryOrderRepository.count] *)
Definition InMemory_count : M (Heap * InMemoryOrderRepository) Z :=
  s <- get ;;
  ret (Z.of_nat (size (_orders (snd s)))).

(** [FakePaymentGateway.clear_history] *)
Definition Fake_clear_history : M (Ambient * FakePaymentGateway) unit :=
  modify (fun s => (fst s,
            mkFakePaymentGateway (success_rate (snd s)) (simulate_failure (snd s))
              [] 0)).

(** An operation that does not pass a quantity of zero or less to
    [add_line]. *)
Definition op_positive (op : Op) : Prop :=
  match op with
  | AddLine _ _ _ q => 0 < q
  | _ => True
  end.

(** A gateway that simulates failures, with a success rate of one half. *)
Definition flaky_gateway : FakePaymentGateway :=
  FakePaymentGateway_init (dec 1 2) true.

(** An ambient whose next [random.random()] is [x]. *)
Definition ambient_drawing (x : Qc) : Ambient :=
  mkAmbient 1000 (fun _ => x) (fun _ => "A1B2C3D4E5") 0.

Section ExecutePath.
Context {R G : Type} `{!OrderRepository R} `{!PaymentGateway G}.

(** The ways through [execute]: where it stops, what it returns there and
    which calls it has logged. *)
Inductive execute_path (oid : UUID) (w : World R G)
  : PaymentResult -> World R G -> list Call -> Prop :=
  | path_get_raises e h r :
      get_by_id oid (heap w, order_repository w) = (Err e, (h, r)) ->
      execute_path oid w (execute_except oid e)
        (mkWorld (ambient w) h r (payment_gateway w)
                 (calls w ++ [CallGetById oid]))
        [CallGetById oid]
  | path_not_found h r :
      get_by_id oid (heap w, order_repository w) = (Ok None, (h, r)) ->
      execute_path oid w
        (mkPaymentResult false (Some oid) None
           (Some ("Order " +:+ oid +:+ " not found")))
        (mkWorld (ambient w) h r (payment_gateway w)
                 (calls w ++ [CallGetById oid]))
        [CallGetById oid]
  | path_dangling l h r :
      get_by_id oid (heap w, order_repository w) = (Ok (Some l), (h, r)) ->
      h !! l = None ->
      execute_path oid w
        (execute_except oid (Raise Exception "dangling reference"))
        (mkWorld (ambient w) h r (payment_gateway w)
                 (calls w ++ [CallGetById oid]))
        [CallGetById oid]
  | path_pay_raises l h r o e o1 :
      get_by_id oid (heap w, order_repository w) = (Ok (Some l), (h, r)) ->
      h !! l = Some o ->
      pay (now (ambient w)) o = (Err e, o1) ->
      execute_path oid w (execute_except oid e)
        (mkWorld (ambient w) (<[l := o1]> h) r (payment_gateway w)
                 (calls w ++ [CallGetById oid]))
        [CallGetById oid]
  | path_total_raises l h r o o1 e :
      get_by_id oid (heap w, order_repository w) = (Ok (Some l), (h, r)) ->
      h !! l = Some o ->
      pay (now (ambient w)) o = (Ok tt, o1) ->
      total o1 = Err e ->
      execute_path oid w (execute_except oid e)
        (mkWorld (ambient w) (<[l := o1]> h) r (payment_gateway w)
                 (calls w ++ [CallGetById oid]))
        [CallGetById oid]
  | path_charge_raises l h r o o1 amt e a g :
      get_by_id oid (heap w, order_repository w) = (Ok (Some l), (h, r)) ->
      h !! l = Some o ->
      pay (now (ambient w)) o = (Ok tt, o1) ->
      total o1 = Ok amt ->
      charge oid amt (ambient w, payment_gateway w) = (Err e, (a, g)) ->
      execute_path oid w (execute_except oid e)
        (mkWorld a (<[l := o1]> h) r g
                 (calls w ++ [CallGetById oid; CallCharge oid amt]))
        [CallGetById oid; CallCharge oid amt]
  | path_save_raises l h r o o1 amt txn a g e h' r' :
      get_by_id oid (heap w, order_repository w) = (Ok (Some l), (h, r)) ->
      h !! l = Some o ->
      pay (now (ambient w)) o = (Ok tt, o1) ->
      total o1 = Ok amt ->
      charge oid amt (ambient w, payment_gateway w) = (Ok txn, (a, g)) ->
      save l (<[l := o1]> h, r) = (Err e, (h', r')) ->
      execute_path oid w (execute_except oid e)
        (mkWorld a h' r' g
           (calls w ++ [CallGetById oid; CallCharge oid amt; CallSave l]))
        [CallGetById oid; CallCharge oid amt; CallSave l]
  | path_success l h r o o1 amt txn a g h' r' :
      get_by_id oid (heap w, order_repository w) = (Ok (Some l), (h, r)) ->
      h !! l = Some o ->
      pay (now (ambient w)) o = (Ok tt, o1) ->
      total o1 = Ok amt ->
      charge oid amt (ambient w, payment_gateway w) = (Ok txn, (a, g)) ->
      save l (<[l := o1]> h, r) = (Ok tt, (h', r')) ->
      execute_path oid w
        (mkPaymentResult true (Some oid) (Some txn) None)
        (mkWorld a h' r' g
           (calls w ++ [CallGetById oid; CallCharge oid amt; CallSave l]))
        [CallGetById oid; CallCharge oid amt; CallSave l].

End ExecutePath.

(** A run of [charge] calls on the fake gateway, results dropped. *)
Definition run_charges (reqs : list (UUID * Money))
    (s : Ambient * FakePaymentGateway) : Ambient * FakePaymentGateway :=
  foldl (fun s rq => snd (Fake_charge (fst rq) (snd rq) s)) s reqs.

(** * Properties *)

Example sample_order_lines :
  (fun l => (product_id l, quantity l)) <$> lines sample_order
  = [("p1", 1); ("p2", 2)].
Proof. vm_compute. reflexivity. Qed.

Example successful_payment :
  let '(res, w) := execute "order-1" (sample_world (FakePaymentGateway_init 1 false)) in
  res = mkPaymentResult true (Some "order-1") (Some "TXN_A1B2C3D4E5") None
  /\ status <$> (heap w !! 1%positive) = Some PAID
  /\ length (transactions (payment_gateway w)) = 1%nat.
Proof. vm_compute. auto. Qed.

(** ** Unfolding methods *)

Ltac unfold_m :=
  cbv [bind get modify ret raise lift] in *.

Ltac unfold_ops :=
  cbv [step run_op add_line remove_line update_quantity clear_lines pay cancel
       _check_modifiable] in *; unfold_m.

Lemma check_modifiable_eq (o : Order) :
  _check_modifiable o =
    if bool_decide (status o = PAID)
    then (Err (Raise OrderCannotBeModifiedError "Cannot modify paid order"), o)
    else (Ok tt, o).
Proof. unfold_ops. by case_bool_decide. Qed.

(** A method that starts with the guard raises on a paid order, before it
    has touched anything. *)
Lemma guarded_paid {A} (k : M Order A) (o : Order) :
  status o = PAID ->
  bind _check_modifiable (fun _ => k) o
  = (Err (Raise OrderCannotBeModifiedError "Cannot modify paid order"), o).
Proof.
  intros Hp. unfold bind at 1. rewrite check_modifiable_eq.
  by rewrite bool_decide_eq_true_2.
Qed.

Lemma guarded_modifiable {A} (k : M Order A) (o : Order) :
  status o <> PAID ->
  bind _check_modifiable (fun _ => k) o = k o.
Proof.
  intros Hp. unfold bind at 1. rewrite check_modifiable_eq.
  by rewrite bool_decide_eq_false_2.
Qed.

(** What [pay] does, by cases on its two guards. *)
Lemma pay_eq (t : datetime) (o : Order) :
  pay t o =
    if bool_decide (lines o = [])
    then (Err (Raise EmptyOrderError "Cannot pay empty order"), o)
    else if bool_decide (status o = PAID)
    then (Err (Raise OrderAlreadyPaidError "Order is already paid"), o)
    else (Ok tt, mkOrder (id o) (customer_id o) (lines o) PAID (created_at o)
                         (Some t) (_version o + 1)).
Proof. unfold_ops. by repeat case_bool_decide. Qed.

(** The four line operations never assign [status]. *)
Lemma add_line_status pid name p q o :
  status (snd (add_line pid name p q o)) = status o.
Proof.
  unfold add_line. destruct (decide (status o = PAID)) as [Hp|Hp].
  - by rewrite guarded_paid.
  - rewrite guarded_modifiable by done. unfold_m.
    destruct (update_first _ _ _); [done|].
    by destruct (OrderLine_init _ _ _ _).
Qed.

Lemma remove_line_status pid o :
  status (snd (remove_line pid o)) = status o.
Proof.
  unfold remove_line. destruct (decide (status o = PAID)) as [Hp|Hp].
  - by rewrite guarded_paid.
  - rewrite guarded_modifiable by done. unfold_m. simpl.
    by case_bool_decide.
Qed.

Lemma remove_line_modifiable pid o :
  status o <> PAID ->
  remove_line pid o =
    (Ok tt,
     let ls := filter (fun l => product_id l ≠ pid) (lines o) in
     mkOrder (id o) (customer_id o) ls (status o) (created_at o) (paid_at o)
             (if bool_decide (length ls = length (lines o))
              then _version o else _version o + 1)).
Proof.
  intros Hp. unfold remove_line. rewrite guarded_modifiable by done.
  unfold_m. simpl. by case_bool_decide.
Qed.

Lemma update_quantity_status pid q o :
  status (snd (update_quantity pid q o)) = status o.
Proof.
  unfold update_quantity. destruct (decide (status o = PAID)) as [Hp|Hp].
  - by rewrite guarded_paid.
  - rewrite guarded_modifiable by done. unfold bind at 1. unfold get at 1.
    destruct (update_first _ _ _); [|done].
    destruct (q <=? 0).
    + unfold bind. rewrite remove_line_modifiable by done. done.
    + done.
Qed.

Lemma clear_lines_status o : status (snd (clear_lines o)) = status o.
Proof.
  unfold clear_lines. destruct (decide (status o = PAID)) as [Hp|Hp].
  - by rewrite guarded_paid.
  - by rewrite guarded_modifiable by done.
Qed.

Lemma cancel_eq o :
  cancel o =
    if bool_decide (status o = PAID)
    then (Err (Raise OrderCannotBeModifiedError "Cannot modify paid order"), o)
    else (Ok tt, mkOrder (id o) (customer_id o) (lines o) CANCELLED
                         (created_at o) (paid_at o) (_version o + 1)).
Proof. unfold_ops. by case_bool_decide. Qed.

(** Once paid, an order is left as it is by every operation. *)
Lemma step_paid (op : Op) (o : Order) : status o = PAID -> step op o = o.
Proof.
  intros Hp. destruct op; unfold step, run_op.
  - unfold add_line. by rewrite guarded_paid.
  - unfold remove_line. by rewrite guarded_paid.
  - unfold update_quantity. by rewrite guarded_paid.
  - unfold clear_lines. by rewrite guarded_paid.
  - rewrite pay_eq. case_bool_decide; [done|]. by rewrite bool_decide_eq_true_2.
  - unfold cancel. by rewrite guarded_paid.
Qed.

Lemma run_ops_paid (ops : list Op) (o : Order) :
  status o = PAID -> run_ops ops o = o.
Proof.
  revert o. induction ops as [|op ops IH]; intros o Hp; [done|].
  unfold run_ops in *. simpl. rewrite step_paid by done. by apply IH.
Qed.

Lemma reachable_run_ops (ops : list Op) (o : Order) :
  reachable o -> reachable (run_ops ops o).
Proof.
  revert o. induction ops as [|op ops IH]; intros o Hr; [done|].
  apply (IH (step op o)). by constructor.
Qed.

(** The status after one call, operation by operation. *)
Lemma step_status (op : Op) (o : Order) :
  status (step op o) =
    match op with
    | Pay _ => if bool_decide (lines o = []) then status o else PAID
    | Cancel => if bool_decide (status o = PAID) then PAID else CANCELLED
    | _ => status o
    end.
Proof.
  destruct op; unfold step, run_op.
  - apply add_line_status.
  - apply remove_line_status.
  - apply update_quantity_status.
  - apply clear_lines_status.
  - rewrite pay_eq. by repeat case_bool_decide.
  - rewrite cancel_eq. by case_bool_decide.
Qed.

(** ** The status state machine *)

(** C1, as the code has it: the status changes only along Pending→Paid
    (pay), Pending→Cancelled (cancel) and Cancelled→Paid (pay); no sequence
    of operations moves an order out of Paid; a Cancelled order stays
    payable, and [pay] succeeds on it exactly when it has a line. *)
Theorem status_transitions (op : Op) (o : Order) :
  (status o = PAID -> forall ops, status (run_ops ops o) = PAID)
  /\ (status (step op o) = status o
      \/ (status o = PENDING /\ status (step op o) = PAID
          /\ exists t, op = Pay t)
      \/ (status o = PENDING /\ status (step op o) = CANCELLED
          /\ op = Cancel)
      \/ (status o = CANCELLED /\ status (step op o) = PAID
          /\ exists t, op = Pay t))
  /\ (status o = CANCELLED ->
      forall t, fst (pay t o) = Ok tt <-> lines o <> []).
Proof.
  split; [|split].
  - intros Hp ops. by rewrite run_ops_paid.
  - rewrite step_status. destruct op; auto.
    + case_bool_decide; [auto|].
      destruct (status o) eqn:Hs; eauto 10.
    + case_bool_decide as Hp; [auto|].
      destruct (status o) eqn:Hs; eauto 10. done.
  - intros Hc t. rewrite pay_eq.
    case_bool_decide as Hl.
    + split; [done|]. intros []. done.
    + rewrite bool_decide_eq_false_2 by congruence. done.
Qed.

Lemma status_transitions_witness :
  (forall ops, status (run_ops ops paid_order) = PAID)
  /\ (forall t, fst (pay t cancelled_order) = Ok tt
                <-> lines cancelled_order <> []).
Proof.
  split.
  - apply (status_transitions Cancel paid_order). reflexivity.
  - apply (status_transitions Cancel cancelled_order). reflexivity.
Defined.

(** C1 as stated fails: a cancelled order with a line is reachable, and
    [pay] moves it to Paid. *)
Lemma cancelled_is_not_terminal :
  ~ (forall o : Order, reachable o -> status o = CANCELLED ->
       forall t, fst (pay t o) <> Ok tt
                 /\ status (step (Pay t) o) = CANCELLED).
Proof.
  intros H.
  destruct (H cancelled_order) with (t := 7) as [Hpay _].
  - apply reachable_run_ops. constructor.
  - reflexivity.
  - apply Hpay. reflexivity.
Qed.

(** ** [pay] *)

(** C6: [pay] tests emptiness first and the Paid status second.  With no
    lines it raises [EmptyOrderError] and leaves the order as it was (a
    Pending order stays Pending); with lines and status Paid it raises
    [OrderAlreadyPaidError]; otherwise it sets the status to Paid, sets
    [paid_at] and adds one to the revision. *)
Theorem pay_guards (t : datetime) (o : Order) :
  (lines o = [] ->
     pay t o = (Err (Raise EmptyOrderError "Cannot pay empty order"), o)
     /\ (status o = PENDING -> status (snd (pay t o)) = PENDING))
  /\ (lines o <> [] -> status o = PAID ->
     pay t o = (Err (Raise OrderAlreadyPaidError "Order is already paid"), o))
  /\ (lines o <> [] -> status o <> PAID ->
     fst (pay t o) = Ok tt
     /\ status (snd (pay t o)) = PAID
     /\ paid_at (snd (pay t o)) = Some t
     /\ _version (snd (pay t o)) = _version o + 1
     /\ lines (snd (pay t o)) = lines o
     /\ id (snd (pay t o)) = id o
     /\ customer_id (snd (pay t o)) = customer_id o
     /\ created_at (snd (pay t o)) = created_at o).
Proof.
  rewrite pay_eq. split; [|split].
  - intros Hl. by rewrite bool_decide_eq_true_2.
  - intros Hl Hp. rewrite bool_decide_eq_false_2 by done.
    by rewrite bool_decide_eq_true_2.
  - intros Hl Hp. by rewrite !bool_decide_eq_false_2.
Qed.

Lemma pay_guards_witness :
  (pay 7 fresh_order
     = (Err (Raise EmptyOrderError "Cannot pay empty order"), fresh_order)
   /\ status (snd (pay 7 fresh_order)) = PENDING)
  /\ pay 7 empty_paid_order
     = (Err (Raise EmptyOrderError "Cannot pay empty order"), empty_paid_order)
  /\ pay 8 paid_order
     = (Err (Raise OrderAlreadyPaidError "Order is already paid"), paid_order)
  /\ (fst (pay 7 one_line_order) = Ok tt
      /\ status (snd (pay 7 one_line_order)) = PAID
      /\ paid_at (snd (pay 7 one_line_order)) = Some 7
      /\ _version (snd (pay 7 one_line_order)) = _version one_line_order + 1).
Proof.
  split; [|split; [|split]].
  - destruct (pay_guards 7 fresh_order) as (H & _ & _).
    destruct H as [H1 H2]; [reflexivity|]. split; [exact H1|].
    apply H2. reflexivity.
  - destruct (pay_guards 7 empty_paid_order) as (H & _ & _).
    apply H. reflexivity.
  - destruct (pay_guards 8 paid_order) as (_ & H & _).
    apply H; [discriminate | reflexivity].
  - destruct (pay_guards 7 one_line_order) as (_ & _ & H).
    destruct H as (H1 & H2 & H3 & H4 & _); [discriminate..|].
    auto.
Defined.

(** ** After payment *)

Lemma run_op_paid (op : Op) (o : Order) :
  status o = PAID -> lines o <> [] -> run_op op o = (Err (rejection op), o).
Proof.
  intros Hp Hl. destruct op; unfold run_op, rejection.
  - unfold add_line. by rewrite guarded_paid.
  - unfold remove_line. by rewrite guarded_paid.
  - unfold update_quantity. by rewrite guarded_paid.
  - unfold clear_lines. by rewrite guarded_paid.
  - rewrite pay_eq. rewrite bool_decide_eq_false_2 by done.
    by rewrite bool_decide_eq_true_2.
  - unfold cancel. by rewrite guarded_paid.
Qed.

(** C5: once [pay] has succeeded, each later call, after any number of
    other calls, raises [OrderCannotBeModifiedError] for [add_line],
    [remove_line], [update_quantity], [clear_lines] and [cancel], and
    [OrderAlreadyPaidError] for [pay], and the order stays as [pay] left
    it. *)
Theorem paid_order_rejects_everything (t : datetime) (o o' : Order) :
  pay t o = (Ok tt, o') ->
  forall (ops : list Op) (op : Op),
    run_op op (run_ops ops o') = (Err (rejection op), o').
Proof.
  rewrite pay_eq. intros Hpay ops op.
  case_bool_decide as Hl; [done|]. case_bool_decide as Hp; [done|].
  injection Hpay as <-.
  rewrite run_ops_paid by done. by apply run_op_paid.
Qed.

Lemma paid_order_rejects_everything_witness :
  let o' := snd (pay 7 one_line_order) in
  run_op (AddLine "p2" "Mouse" (usd 2999 100) 2) (run_ops [] o')
  = (Err (Raise OrderCannotBeModifiedError "Cannot modify paid order"), o')
  /\ run_op (RemoveLine "p1") (run_ops [ClearLines] o')
     = (Err (Raise OrderCannotBeModifiedError "Cannot modify paid order"), o')
  /\ run_op (UpdateQuantity "p1" 3) (run_ops [Cancel; Pay 8] o')
     = (Err (Raise OrderCannotBeModifiedError "Cannot modify paid order"), o')
  /\ run_op ClearLines (run_ops [RemoveLine "p1"] o')
     = (Err (Raise OrderCannotBeModifiedError "Cannot modify paid order"), o')
  /\ run_op Cancel (run_ops [UpdateQuantity "p1" 0] o')
     = (Err (Raise OrderCannotBeModifiedError "Cannot modify paid order"), o')
  /\ run_op (Pay 9) (run_ops [Cancel; ClearLines] o')
     = (Err (Raise OrderAlreadyPaidError "Order is already paid"), o').
Proof.
  pose proof (paid_order_rejects_everything 7 one_line_order
                (snd (pay 7 one_line_order)) eq_refl) as H.
  repeat split; apply H.
Defined.

(** ** Line invariants *)

(** C3 fails on the merge path of [add_line]: the delta is added to the
    existing line without the test [OrderLine.__post_init__] makes on a new
    line, so two accepted calls leave a line whose quantity is not
    positive. *)
Theorem add_line_merge_skips_validation :
  let o1 := step (AddLine "p1" "Laptop" (usd 99999 100) 1) fresh_order in
  let o2 := step (AddLine "p1" "Laptop" (usd 99999 100) (-5)) o1 in
  fst (add_line "p1" "Laptop" (usd 99999 100) 1 fresh_order) = Ok tt
  /\ fst (add_line "p1" "Laptop" (usd 99999 100) (-5) o1) = Ok tt
  /\ reachable o2
  /\ status o2 = PENDING
  /\ quantity <$> lines o2 = [-4]
  /\ OrderLine_init "p1" "Laptop" (usd 99999 100) (-4)
     = Err (Raise InvalidOrderLineError "Quantity must be positive").
Proof.
  repeat split; try reflexivity.
  do 2 constructor. constructor.
Qed.

(** ** Product ids *)

Lemma update_first_None pid f (ls : list OrderLine) :
  pid ∉ product_id <$> ls -> update_first pid f ls = None.
Proof.
  induction ls as [|l ls IH]; [done|]. simpl. intros Hn.
  apply not_elem_of_cons in Hn as [Hne Hn].
  rewrite bool_decide_eq_false_2 by done. by rewrite IH.
Qed.

Lemma update_first_is_None pid f (ls : list OrderLine) :
  update_first pid f ls = None -> pid ∉ product_id <$> ls.
Proof.
  induction ls as [|l ls IH]; simpl.
  - intros _. apply not_elem_of_nil.
  - case_bool_decide as Hl; [done|].
    destruct (update_first pid f ls); [done|]. intros _.
    apply not_elem_of_cons. split; [done|]. by apply IH.
Qed.

(** With one line per product, updating the first match is updating the
    match. *)
Lemma update_first_NoDup pid f (ls : list OrderLine) :
  NoDup (product_id <$> ls) -> pid ∈ product_id <$> ls ->
  update_first pid f ls =
    Some ((fun l => if bool_decide (product_id l = pid) then f l else l)
            <$> ls).
Proof.
  induction ls as [|l ls IH]; simpl.
  - intros _ Hin. by apply elem_of_nil in Hin.
  - intros [Hl Hnd]%NoDup_cons Hin. case_bool_decide as Heq.
    + subst pid. do 2 f_equal.
      clear IH Hin Hnd. induction ls as [|l' ls IH]; [done|]. simpl in *.
      apply not_elem_of_cons in Hl as [Hne Hl].
      rewrite bool_decide_eq_false_2 by done. f_equal. by apply IH.
    + apply elem_of_cons in Hin as [Hin|Hin]; [done|].
      by rewrite IH.
Qed.

Lemma update_first_ids pid f (ls ls' : list OrderLine) :
  update_first pid f ls = Some ls' ->
  (forall l, product_id (f l) = product_id l) ->
  product_id <$> ls' = product_id <$> ls.
Proof.
  intros Hu Hf. revert ls' Hu. induction ls as [|l ls IH]; intros ls'; [done|].
  simpl. case_bool_decide.
  - intros [= <-]. simpl. by rewrite Hf.
  - destruct (update_first pid f ls) as [k|]; [|done].
    intros [= <-]. simpl. f_equal. by apply IH.
Qed.

Lemma filter_ids_NoDup pid (ls : list OrderLine) :
  NoDup (product_id <$> ls) ->
  NoDup (product_id <$> filter (fun l => product_id l ≠ pid) ls).
Proof.
  intros Hnd. apply (sublist_NoDup _ (product_id <$> ls)); [done|].
  apply fmap_sublist, sublist_filter.
Qed.

Lemma filter_ids_absent pid (ls : list OrderLine) :
  pid ∉ product_id <$> filter (fun l => product_id l ≠ pid) ls.
Proof.
  intros (l & -> & [Hne _]%list_elem_of_filter)%list_elem_of_fmap. done.
Qed.

(** Removing a product that has exactly one line takes one line away. *)
Lemma filter_ids_length pid (ls : list OrderLine) :
  NoDup (product_id <$> ls) -> pid ∈ product_id <$> ls ->
  (length (filter (fun l => product_id l ≠ pid) ls) + 1 = length ls)%nat.
Proof.
  induction ls as [|l ls IH]; simpl.
  - intros _ Hin. by apply elem_of_nil in Hin.
  - intros [Hl Hnd]%NoDup_cons Hin.
    destruct (decide (product_id l = pid)) as [Heq|Hne].
    + rewrite filter_cons_False by (intros ?; done). subst pid.
      assert (filter (fun l' => product_id l' ≠ product_id l) ls = ls)
        as ->; [|lia].
      clear IH Hin Hnd. induction ls as [|l' ls IH]; [done|]. simpl in Hl.
      apply not_elem_of_cons in Hl as [Hne Hl].
      rewrite filter_cons_True by congruence. f_equal. by apply IH.
    + rewrite filter_cons_True by done. simpl.
      apply elem_of_cons in Hin as [Hin|Hin]; [done|].
      rewrite <- (IH Hnd Hin). lia.
Qed.

(** [add_line] merges, so no product ever has two lines. *)
Lemma step_NoDup (op : Op) (o : Order) :
  NoDup (product_ids o) -> NoDup (product_ids (step op o)).
Proof.
  unfold product_ids. intros Hnd.
  destruct (decide (status o = PAID)) as [Hp|Hp];
    [by rewrite step_paid|].
  destruct op; unfold step, run_op.
  - unfold add_line. rewrite guarded_modifiable by done.
    unfold bind at 1. unfold get at 1.
    destruct (update_first _ _ _) as [ls'|] eqn:Hu.
    + simpl. by rewrite (update_first_ids _ _ _ _ Hu).
    + unfold_m. destruct (OrderLine_init _ _ _ _) as [line|] eqn:Hline; [|done].
      simpl. rewrite fmap_app. apply NoDup_app. split; [done|].
      split; [|apply NoDup_singleton].
      intros x Hx. simpl. intros ->%list_elem_of_singleton.
      apply update_first_is_None in Hu.
      unfold OrderLine_init in Hline. by repeat case_match; simplify_eq.
  - rewrite remove_line_modifiable by done. simpl. by apply filter_ids_NoDup.
  - unfold update_quantity. rewrite guarded_modifiable by done.
    unfold bind at 1. unfold get at 1.
    destruct (update_first _ _ _) as [ls'|] eqn:Hu; [|done].
    destruct (q <=? 0).
    + unfold bind. rewrite remove_line_modifiable by done. simpl.
      by apply filter_ids_NoDup.
    + simpl. by rewrite (update_first_ids _ _ _ _ Hu).
  - unfold clear_lines. rewrite guarded_modifiable by done. simpl.
    apply NoDup_nil_2.
  - rewrite pay_eq. by repeat case_bool_decide.
  - rewrite cancel_eq. by case_bool_decide.
Qed.

Lemma reachable_NoDup (o : Order) : reachable o -> NoDup (product_ids o).
Proof.
  induction 1 as [|op o _ IH]; [apply NoDup_nil_2|]. by apply step_NoDup.
Qed.

(** ** [update_quantity] *)

Lemma update_quantity_modifiable (pid : UUID) (q : Z) (o : Order) :
  status o <> PAID ->
  update_quantity pid q o =
    match update_first pid (set_quantity q) (lines o) with
    | Some ls' =>
        if q <=? 0
        then (Ok tt, bump_version (snd (remove_line pid o)))
        else (Ok tt, bump_version (set_lines ls' o))
    | None =>
        (Err (Raise ValueError ("Product " +:+ pid +:+ " not found in order")),
         o)
    end.
Proof.
  intros Hp. unfold update_quantity. rewrite guarded_modifiable by done.
  unfold bind at 1. unfold get at 1.
  destruct (update_first _ _ _); [|done].
  destruct (q <=? 0); [|done].
  unfold bind. by rewrite remove_line_modifiable by done.
Qed.

(** C9: on a Pending order obtained through the operations,
    [update_quantity] raises the product-not-found [ValueError] when the
    product has no line (whatever the quantity); with a line and a quantity
    at most zero it hands over to [remove_line], the line is gone and
    [line_count] is one less; with a line and a positive quantity it stores
    the quantity in that line and adds one to the revision. *)
Theorem update_quantity_cases (pid : UUID) (q : Z) (o : Order) :
  reachable o -> status o = PENDING ->
  (pid ∉ product_ids o ->
     update_quantity pid q o
     = (Err (Raise ValueError ("Product " +:+ pid +:+ " not found in order")),
        o))
  /\ (pid ∈ product_ids o -> q <= 0 ->
     fst (update_quantity pid q o) = Ok tt
     /\ lines (snd (update_quantity pid q o)) = lines (snd (remove_line pid o))
     /\ lines (snd (update_quantity pid q o))
        = filter (fun l => (product_id l ≠ pid)) (lines o)
     /\ (pid ∉ product_ids (snd (update_quantity pid q o)))
     /\ (line_count (snd (update_quantity pid q o)) + 1 = line_count o)%nat)
  /\ (pid ∈ product_ids o -> 0 < q ->
     update_quantity pid q o
     = (Ok tt,
        mkOrder (id o) (customer_id o)
          ((fun l => if bool_decide (product_id l = pid)
                     then set_quantity q l else l) <$> lines o)
          (status o) (created_at o) (paid_at o) (_version o + 1))).
Proof.
  intros Hr Hs. pose proof (reachable_NoDup o Hr) as Hnd.
  assert (status o <> PAID) as Hp by (rewrite Hs; discriminate).
  unfold product_ids in *. rewrite update_quantity_modifiable by done.
  split; [|split].
  - intros Hn. by rewrite update_first_None.
  - intros Hin Hq. rewrite update_first_NoDup by done.
    rewrite (proj2 (Z.leb_le q 0)) by done.
    rewrite remove_line_modifiable by done. simpl.
    split; [done|]. split; [done|]. split; [done|].
    split; [apply filter_ids_absent|].
    unfold line_count. simpl. by apply filter_ids_length.
  - intros Hin Hq. rewrite update_first_NoDup by done.
    rewrite (proj2 (Z.leb_gt q 0)) by lia. done.
Qed.

Lemma sample_order_reachable : reachable sample_order.
Proof. apply reachable_run_ops. constructor. Qed.

Example sample_order_ids : product_ids sample_order = ["p1"; "p2"].
Proof. reflexivity. Qed.

Lemma update_quantity_cases_witness :
  update_quantity "p9" 0 sample_order
  = (Err (Raise ValueError "Product p9 not found in order"), sample_order)
  /\ (line_count (snd (update_quantity "p2" 0 sample_order)) + 1
      = line_count sample_order)%nat
  /\ quantity <$> lines (snd (update_quantity "p2" 5 sample_order)) = [1; 5].
Proof.
  split; [|split].
  - destruct (update_quantity_cases "p9" 0 sample_order) as (H & _ & _);
      [apply sample_order_reachable | reflexivity |].
    apply H. rewrite sample_order_ids. intros Hin.
    repeat (apply elem_of_cons in Hin as [Hin|Hin]; [discriminate|]).
    by apply elem_of_nil in Hin.
  - destruct (update_quantity_cases "p2" 0 sample_order) as (_ & H & _);
      [apply sample_order_reachable | reflexivity |].
    apply H; [|lia]. rewrite sample_order_ids, !elem_of_cons. auto.
  - destruct (update_quantity_cases "p2" 5 sample_order) as (_ & _ & H);
      [apply sample_order_reachable | reflexivity |].
    rewrite H; [reflexivity | | lia].
    rewrite sample_order_ids, !elem_of_cons. auto.
Defined.

(** ** [total] *)

Lemma Money_init_nonneg (a : Decimal) (c : string) :
  (0 ≤ a)%Qc -> Money_init a c = Ok (mkMoney a c).
Proof.
  intros Ha. unfold Money_init, Decimal_ltb.
  rewrite bool_decide_eq_false_2; [done|]. by apply Qcle_ngt.
Qed.

Lemma subtotal_amount_nonneg (l : OrderLine) :
  line_valid l -> (0 ≤ subtotal_amount l)%Qc.
Proof.
  intros [Hq Ha]. apply Qcmult_nonneg_nonneg.
  - by apply Qclt_le_weak.
  - unfold Decimal_of_int. rewrite <- Z2Qc_inj_0.
    apply (proj1 (Z2Qc_inj_le 0 (quantity l))). lia.
Qed.

Lemma subtotal_valid (l : OrderLine) :
  line_valid l ->
  subtotal l = Ok (mkMoney (subtotal_amount l) (currency (price l))).
Proof.
  intros Hv. unfold subtotal, Money_mul.
  by rewrite Money_init_nonneg by by apply subtotal_amount_nonneg.
Qed.

Lemma sum_of_subtotals_cons (l : OrderLine) (ls : list OrderLine) :
  sum_of_subtotals (l :: ls) = (subtotal_amount l + sum_of_subtotals ls)%Qc.
Proof. reflexivity. Qed.

Lemma sum_of_subtotals_nonneg (ls : list OrderLine) :
  Forall line_valid ls -> (0 ≤ sum_of_subtotals ls)%Qc.
Proof.
  induction 1 as [|l ls Hl _ IH]; [done|].
  apply Qcplus_nonneg_nonneg; [by apply subtotal_amount_nonneg | done].
Qed.

Lemma sum_of_subtotals_perm (ls ls' : list OrderLine) :
  ls ≡ₚ ls' -> sum_of_subtotals ls = sum_of_subtotals ls'.
Proof.
  induction 1 as [|l ls ls' _ IH|l l' ls|ls1 ls2 ls3 _ IH1 _ IH2].
  - done.
  - by rewrite !sum_of_subtotals_cons, IH.
  - rewrite !sum_of_subtotals_cons. ring.
  - by rewrite IH1.
Qed.

(** The loop, from an accumulator in currency [c]: the sum when every line
    is in [c], the exception of [Money.__add__] at the first line that is
    not. *)
Lemma total_loop_valid (acc : Money) (ls : list OrderLine) :
  (0 ≤ amount acc)%Qc -> Forall line_valid ls ->
  total_loop acc ls =
    match first_foreign (currency acc) ls with
    | None =>
        Ok (mkMoney (amount acc + sum_of_subtotals ls)%Qc (currency acc))
    | Some c' =>
        Err (Raise ValueError
               ("Cannot add different currencies: " +:+ currency acc
                +:+ " and " +:+ c'))
    end.
Proof.
  intros Hacc Hv. revert acc Hacc.
  induction Hv as [|l ls Hl Hv IH]; intros acc Hacc; simpl.
  - destruct acc as [a c]. simpl. do 2 f_equal.
    unfold sum_of_subtotals. simpl. ring.
  - rewrite subtotal_valid by done. unfold Money_add. simpl.
    case_bool_decide as Hc.
    + rewrite bool_decide_eq_true_2 by done. simpl.
      pose proof (subtotal_amount_nonneg l Hl) as Hs.
      rewrite Money_init_nonneg by by apply Qcplus_nonneg_nonneg.
      rewrite IH by (simpl; by apply Qcplus_nonneg_nonneg). simpl.
      destruct (first_foreign _ _); [done|].
      do 2 f_equal. rewrite sum_of_subtotals_cons. ring.
    + rewrite bool_decide_eq_false_2 by done. done.
Qed.

Lemma total_valid (o : Order) :
  Forall line_valid (lines o) ->
  total o =
    match lines o with
    | [] => Ok (mkMoney 0%Qc "USD")
    | l0 :: _ =>
        match first_foreign (currency (price l0)) (lines o) with
        | None =>
            Ok (mkMoney (sum_of_subtotals (lines o)) (currency (price l0)))
        | Some c' =>
            Err (Raise ValueError
                   ("Cannot add different currencies: "
                    +:+ currency (price l0) +:+ " and " +:+ c'))
        end
    end.
Proof.
  intros Hv. unfold total. destruct (lines o) as [|l0 ls] eqn:Hl; [done|].
  rewrite Money_init_nonneg by done.
  rewrite total_loop_valid by done. simpl currency. simpl amount.
  destruct (first_foreign _ _); [done|].
  do 2 f_equal. ring.
Qed.

Lemma first_foreign_same (c : string) (ls : list OrderLine) :
  Forall (fun l => currency (price l) = c) ls -> first_foreign c ls = None.
Proof.
  induction 1 as [|l ls Hl _ IH]; [done|]. simpl.
  by rewrite bool_decide_eq_true_2.
Qed.

Lemma first_foreign_other (c : string) (ls : list OrderLine) (l : OrderLine) :
  l ∈ ls -> currency (price l) <> c ->
  exists c', c' <> c /\ first_foreign c ls = Some c'.
Proof.
  intros Hin Hne. induction ls as [|l' ls IH].
  - by apply elem_of_nil in Hin.
  - simpl. case_bool_decide as Hc; [|by eauto].
    apply elem_of_cons in Hin as [->|Hin]; [done|]. by apply IH.
Qed.

(** *** Amounts that fit the context *)

Lemma scale_nonzero (k : Z) : 0 <= k -> Qc_of_Z (10 ^ k) <> 0%Qc.
Proof.
  intros Hk. rewrite <- Z2Qc_inj_0. intros Hz%Z2Qc_inj.
  pose proof (Z.pow_pos_nonneg 10 k ltac:(lia) Hk). lia.
Qed.

Lemma at_scale_add (k u v : Z) :
  0 <= k -> (at_scale k u + at_scale k v)%Qc = at_scale k (u + v).
Proof.
  intros Hk. unfold at_scale. rewrite Z2Qc_inj_add. field.
  by apply scale_nonzero.
Qed.

Lemma at_scale_0 (k : Z) : 0 <= k -> at_scale k 0 = 0%Qc.
Proof.
  intros Hk. unfold at_scale. rewrite Z2Qc_inj_0. field.
  by apply scale_nonzero.
Qed.

Lemma at_scale_lt (k u v : Z) :
  0 <= k -> (at_scale k u < at_scale k v)%Qc -> u < v.
Proof.
  intros Hk Hlt. unfold at_scale, Qcdiv in Hlt.
  apply Z2Qc_inj_lt.
  apply (Qcmult_lt_mono_pos_r _ _ (/ Qc_of_Z (10 ^ k))%Qc); [|done].
  apply Qcinv_pos. rewrite <- Z2Qc_inj_0. apply (proj1 (Z2Qc_inj_lt _ _)).
  by apply Z.pow_pos_nonneg.
Qed.

(** The sum of amounts within the precision is held as it is. *)
Lemma sum_within_precision_exact (xs : list Decimal) :
  sum_within_precision xs -> context_exact (foldr Qcplus 0%Qc xs).
Proof.
  intros (k & Hk & Hall & Hsum).
  assert (exists u, 0 <= u /\ foldr Qcplus 0%Qc xs = at_scale k u)
    as (u & Hu & Heq).
  { clear Hsum. induction Hall as [|x xs (ux & Hux & ->) _ (u & Hu & IH)].
    - exists 0. by rewrite at_scale_0 by lia.
    - exists (ux + u). split; [lia|]. simpl.
      by rewrite IH, at_scale_add by lia. }
  exists k, u. split; [done|]. split; [|done].
  rewrite Heq in Hsum. apply at_scale_lt in Hsum; lia.
Qed.

Lemma within_precision_perm (ls ls' : list OrderLine) :
  ls ≡ₚ ls' -> within_precision ls -> within_precision ls'.
Proof.
  intros Hperm (k & Hk & Hall & Hsum). exists k. split; [done|]. split.
  - by rewrite <- Hperm.
  - fold (sum_of_subtotals ls'). fold (sum_of_subtotals ls) in Hsum.
    by rewrite <- (sum_of_subtotals_perm _ _ Hperm).
Qed.

(** C8, as the code has it: for an order whose lines satisfy the
    [OrderLine] invariants and whose subtotals fit the precision of the
    context together, [total] is zero US dollars when there is no line;
    when every line is in one currency it is the sum of [price * quantity]
    over the lines, in that currency, a value the context holds as it is,
    and the same for any other order of the lines; when two lines differ
    in currency it raises the [ValueError] of [Money.__add__] that names
    two different currencies. *)
Theorem total_is_sum_of_subtotals (o : Order) :
  Forall line_valid (lines o) ->
  within_precision (lines o) ->
  (lines o = [] -> total o = Ok (mkMoney 0%Qc "USD"))
  /\ (forall c : string,
        lines o <> [] ->
        Forall (fun l => currency (price l) = c) (lines o) ->
        total o = Ok (mkMoney (sum_of_subtotals (lines o)) c)
        /\ context_exact (sum_of_subtotals (lines o))
        /\ forall o' : Order,
             lines o' ≡ₚ lines o ->
             within_precision (lines o') /\ total o' = total o)
  /\ (forall l1 l2 : OrderLine,
        l1 ∈ lines o -> l2 ∈ lines o ->
        currency (price l1) <> currency (price l2) ->
        exists c1 c2 : string,
          c1 <> c2
          /\ total o
             = Err (Raise ValueError
                      ("Cannot add different currencies: " +:+ c1
                       +:+ " and " +:+ c2))).
Proof.
  intros Hv Hfit. split; [|split].
  - intros Hl. rewrite total_valid by done. by rewrite Hl.
  - intros c Hne Hc.
    assert (forall o' : Order, lines o' ≡ₚ lines o ->
              total o' = Ok (mkMoney (sum_of_subtotals (lines o)) c)) as Hall.
    { intros o' Hperm.
      assert (Forall line_valid (lines o')) as Hv' by by rewrite Hperm.
      assert (Forall (fun l => currency (price l) = c) (lines o')) as Hc'
        by by rewrite Hperm.
      rewrite total_valid by done.
      destruct (lines o') as [|l0 ls] eqn:Hl.
      - symmetry in Hperm. apply Permutation_nil_r in Hperm. done.
      - pose proof (Forall_inv Hc') as Hc0. simpl in Hc0. rewrite Hc0.
        rewrite first_foreign_same by done.
        by rewrite (sum_of_subtotals_perm _ _ Hperm). }
    split; [by apply Hall|]. split.
    + by apply sum_within_precision_exact.
    + intros o' Hperm. split.
      * by apply (within_precision_perm (lines o)).
      * by rewrite (Hall o'), (Hall o).
  - intros l1 l2 H1 H2 Hne. rewrite total_valid by done.
    destruct (lines o) as [|l0 ls] eqn:Hl; [by apply elem_of_nil in H1|].
    assert (exists l, l ∈ l0 :: ls
                      /\ currency (price l) <> currency (price l0))
      as (l & Hin & Hl0).
    { destruct (decide (currency (price l1) = currency (price l0))) as [He|He].
      - exists l2. split; [done|]. congruence.
      - by exists l1. }
    destruct (first_foreign_other _ _ _ Hin Hl0) as (c' & Hc' & ->).
    exists (currency (price l0)), c'. split; [congruence|done].
Qed.


Example mixed_order_lines :
  lines mixed_order
  = [mkOrderLine "p1" "Laptop" (usd 99999 100) 1;
     mkOrderLine "p3" "Cable" (eur 500 100) 1].
Proof. reflexivity. Qed.

Lemma sample_order_within_precision : within_precision (lines sample_order).
Proof.
  exists 2. split; [lia|]. split; [|reflexivity].
  repeat constructor.
  - exists 99999. split; [lia|]. by apply Qc_is_canon.
  - exists 5998. split; [lia|]. by apply Qc_is_canon.
Qed.

Lemma mixed_order_within_precision : within_precision (lines mixed_order).
Proof.
  exists 2. split; [lia|]. split; [|reflexivity].
  repeat constructor.
  - exists 99999. split; [lia|]. by apply Qc_is_canon.
  - exists 500. split; [lia|]. by apply Qc_is_canon.
Qed.

Lemma total_is_sum_of_subtotals_witness :
  total fresh_order = Ok (mkMoney 0%Qc "USD")
  /\ total sample_order = Ok (mkMoney (dec 105997 100) "USD")
  /\ total swapped_order = total sample_order
  /\ exists c1 c2 : string,
       c1 <> c2
       /\ total mixed_order
          = Err (Raise ValueError
                   ("Cannot add different currencies: " +:+ c1
                    +:+ " and " +:+ c2)).
Proof.
  assert (Forall line_valid (lines sample_order)) as Hv
    by (repeat constructor).
  pose proof sample_order_within_precision as Hfit.
  split; [|split; [|split]].
  - destruct (total_is_sum_of_subtotals fresh_order) as (H & _ & _);
      [apply Forall_nil_2 | | by apply H].
    exists 0. split; [lia|]. split; [constructor | reflexivity].
  - destruct (total_is_sum_of_subtotals sample_order Hv Hfit) as (_ & H & _).
    destruct (H "USD") as [Ht _]; [discriminate | repeat constructor |].
    rewrite Ht. do 2 f_equal. by apply Qc_is_canon.
  - destruct (total_is_sum_of_subtotals sample_order Hv Hfit) as (_ & H & _).
    destruct (H "USD") as (_ & _ & Hperm);
      [discriminate | repeat constructor |].
    apply (Hperm swapped_order), perm_swap.
  - assert (Forall line_valid (lines mixed_order)) as Hm
      by (repeat constructor).
    destruct (total_is_sum_of_subtotals mixed_order Hm
                mixed_order_within_precision) as (_ & _ & H).
    apply (H (mkOrderLine "p1" "Laptop" (usd 99999 100) 1)
             (mkOrderLine "p3" "Cable" (eur 500 100) 1));
      [rewrite mixed_order_lines, !elem_of_cons; auto..|discriminate].
Defined.

(** C8 as stated fails: the order that two accepted [add_line] calls leave
    with a quantity of -4 has all its lines in one currency, and [total]
    raises instead of returning the sum. *)
Lemma one_currency_total_can_raise :
  ~ (forall (o : Order) (c : string),
       reachable o -> lines o <> [] ->
       Forall (fun l => currency (price l) = c) (lines o) ->
       total o = Ok (mkMoney (sum_of_subtotals (lines o)) c)).
Proof.
  intros H.
  specialize (H (step (AddLine "p1" "Laptop" (usd 99999 100) (-5))
                      one_line_order) "USD").
  assert (total (step (AddLine "p1" "Laptop" (usd 99999 100) (-5))
                      one_line_order)
          = Err (Raise ValueError "Amount cannot be negative")) as Hraise
    by reflexivity.
  rewrite Hraise in H. discriminate H.
  - constructor. apply reachable_run_ops. constructor.
  - discriminate.
  - repeat constructor.
Qed.


(** ** The use case *)

Lemma pay_raises (t : datetime) (o : Order) (e : Exn) (o' : Order) :
  pay t o = (Err e, o') ->
  o' = o
  /\ (e = Raise EmptyOrderError "Cannot pay empty order"
      \/ e = Raise OrderAlreadyPaidError "Order is already paid").
Proof.
  rewrite pay_eq. repeat case_bool_decide; intros [= <- <-]; auto.
Qed.

Section ExecuteProperties.
Context {R G : Type} `{!OrderRepository R} `{!PaymentGateway G}.

Ltac unfold_execute :=
  unfold execute, execute_try, log_call, on_repository, on_gateway, on_order;
  unfold_m; simpl.

(** C7: when [order.pay()] raises inside [execute], the exception is a
    domain error, the result is a failure that carries its message as it
    is, and the only call made on a collaborator is [get_by_id]: the
    gateway is not charged, nothing is saved, and gateway, ambient and heap
    are as [get_by_id] left them. *)
Theorem pay_failure_stops_execute
    (oid : UUID) (w : World R G) (l : loc) (h : Heap) (r : R)
    (o o' : Order) (e : Exn) :
  get_by_id oid (heap w, order_repository w) = (Ok (Some l), (h, r)) ->
  h !! l = Some o ->
  pay (now (ambient w)) o = (Err e, o') ->
  isinstance e DomainException = true
  /\ execute oid w
     = (mkPaymentResult false (Some oid) None (Some (str_exc e)),
        mkWorld (ambient w) h r (payment_gateway w)
                (calls w ++ [CallGetById oid])).
Proof.
  intros Hget Hl Hpay.
  destruct (pay_raises _ _ _ _ Hpay) as [-> He].
  assert (isinstance e DomainException = true) as Hd
    by (by destruct He as [->| ->]).
  split; [done|].
  unfold_execute. rewrite Hget. simpl. rewrite Hl, Hpay.
  unfold execute_except. rewrite Hd. by rewrite insert_id.
Qed.

(** What [execute] returns once the charge has gone through, by the
    outcome of [save]. *)
Lemma execute_after_charge
    (oid : UUID) (w : World R G) (l : loc) (h h' : Heap) (r r' : R)
    (o o1 : Order) (amt : Money) (a : Ambient) (g : G) (txn : string)
    (saved : result unit) :
  get_by_id oid (heap w, order_repository w) = (Ok (Some l), (h, r)) ->
  h !! l = Some o ->
  pay (now (ambient w)) o = (Ok tt, o1) ->
  total o1 = Ok amt ->
  charge oid amt (ambient w, payment_gateway w) = (Ok txn, (a, g)) ->
  save l (<[l := o1]> h, r) = (saved, (h', r')) ->
  execute oid w
  = (match saved with
     | Ok _ => mkPaymentResult true (Some oid) (Some txn) None
     | Err e => execute_except oid e
     end,
     mkWorld a h' r' g
             (calls w ++ [CallGetById oid; CallCharge oid amt; CallSave l])).
Proof.
  intros Hget Hl Hpay Htotal Hcharge Hsave.
  unfold_execute. rewrite Hget. simpl. rewrite Hl, Hpay. simpl.
  rewrite lookup_insert_eq, Htotal. simpl. rewrite Hcharge. simpl.
  rewrite !insert_insert_eq, Hsave.
  rewrite <- !app_assoc. simpl. by destruct saved as [[]|].
Qed.

(** C10, as the code has it: when [save] raises after the charge went
    through, [execute] returns a failure without the transaction id; the
    error is the message of the exception as it is when [save] raised a
    domain error, and the message after "Payment processing error: " when it
    raised anything else.  When [save] returns, the result is the success
    that carries the transaction id. *)
Theorem save_outcome_decides_result
    (oid : UUID) (w : World R G) (l : loc) (h h' : Heap) (r r' : R)
    (o o1 : Order) (amt : Money) (a : Ambient) (g : G) (txn : string)
    (saved : result unit) :
  get_by_id oid (heap w, order_repository w) = (Ok (Some l), (h, r)) ->
  h !! l = Some o ->
  pay (now (ambient w)) o = (Ok tt, o1) ->
  total o1 = Ok amt ->
  charge oid amt (ambient w, payment_gateway w) = (Ok txn, (a, g)) ->
  save l (<[l := o1]> h, r) = (saved, (h', r')) ->
  fst (execute oid w)
  = match saved with
    | Ok _ => mkPaymentResult true (Some oid) (Some txn) None
    | Err e =>
        mkPaymentResult false (Some oid) None
          (Some (if isinstance e DomainException then str_exc e
                 else "Payment processing error: " +:+ str_exc e))
    end.
Proof.
  intros Hget Hl Hpay Htotal Hcharge Hsave.
  rewrite (execute_after_charge _ _ _ _ _ _ _ _ _ _ _ _ _ _
             Hget Hl Hpay Htotal Hcharge Hsave). simpl.
  destruct saved as [|e]; [done|].
  unfold execute_except. by destruct (isinstance e DomainException).
Qed.

End ExecuteProperties.

(** ** The use case over the in-memory repository and the fake gateway *)

Lemma pay_failure_stops_execute_witness :
  isinstance (Raise EmptyOrderError "Cannot pay empty order") DomainException
  = true
  /\ execute "order-1" empty_world
     = (mkPaymentResult false (Some "order-1") None
          (Some "Cannot pay empty order"),
        mkWorld sample_ambient {[ 1%positive := fresh_order ]}
          (mkInMemoryOrderRepository {[ "order-1" := 1%positive ]})
          (FakePaymentGateway_init 1 false) [CallGetById "order-1"]).
Proof.
  apply (pay_failure_stops_execute "order-1" empty_world 1%positive
           {[ 1%positive := fresh_order ]}
           (mkInMemoryOrderRepository {[ "order-1" := 1%positive ]})
           fresh_order fresh_order
           (Raise EmptyOrderError "Cannot pay empty order"));
    reflexivity.
Defined.

Lemma save_outcome_decides_result_witness :
  fst (execute "order-1" (rejecting_world (Raise Exception "disk full")))
  = mkPaymentResult false (Some "order-1") None
      (Some "Payment processing error: disk full")
  /\ fst (execute "order-1" (sample_world (FakePaymentGateway_init 1 false)))
     = mkPaymentResult true (Some "order-1") (Some "TXN_A1B2C3D4E5") None.
Proof.
  split.
  - refine (save_outcome_decides_result "order-1"
              (rejecting_world (Raise Exception "disk full")) 1%positive
              _ _ _ _ _ _ _ _ _ _ (Err (Raise Exception "disk full"))
              _ _ _ _ _ _); vm_compute; reflexivity.
  - refine (save_outcome_decides_result "order-1"
              (sample_world (FakePaymentGateway_init 1 false)) 1%positive
              _ _ _ _ _ _ _ _ _ _ (Ok tt)
              _ _ _ _ _ _); vm_compute; reflexivity.
Defined.

(** C10 as stated fails when the exception [save] raises is a domain
    error: the first handler takes it and the message comes back without the
    prefix. *)
Lemma save_domain_error_has_no_prefix :
  let e := Raise DomainException "Order was changed by another session" in
  call_name <$> calls (snd (execute "order-1" (rejecting_world e)))
  = ["get_by_id"; "charge"; "save"]
  /\ fst (execute "order-1" (rejecting_world e))
     = mkPaymentResult false (Some "order-1") None
         (Some "Order was changed by another session")
  /\ fst (execute "order-1" (rejecting_world e))
     <> mkPaymentResult false (Some "order-1") None
          (Some "Payment processing error: Order was changed by another session").
Proof. repeat split; [reflexivity.. | discriminate]. Qed.

(** C2 fails with the in-memory repository: [get_by_id] hands out the
    stored object itself, [pay] changes it in place, and the declined
    charge skips [save] but not the change.  The result is the failure, no
    [save] was called, and the order the repository returns for the id is
    Paid. *)
Theorem declined_charge_leaves_stored_order_paid :
  let w0 := sample_world declining_gateway in
  let res := fst (execute "order-1" w0) in
  let w := snd (execute "order-1" w0) in
  fst (get_by_id "order-1" (heap w0, order_repository w0)) = Ok (Some 1%positive)
  /\ status <$> heap w0 !! 1%positive = Some PENDING
  /\ res = mkPaymentResult false (Some "order-1") None
             (Some "Payment processing error: Payment gateway declined transaction for order order-1")
  /\ call_name <$> calls w = ["get_by_id"; "charge"]
  /\ order_repository w = order_repository w0
  /\ fst (get_by_id "order-1" (heap w, order_repository w)) = Ok (Some 1%positive)
  /\ status <$> heap w !! 1%positive = Some PAID
  /\ is_paid <$> heap w !! 1%positive = Some true.
Proof. repeat split; reflexivity. Qed.

Section ChargeFailure.
Context {R G : Type} `{!OrderRepository R} `{!PaymentGateway G}.

(** X20: when [charge] raises, for any repository and gateway, [execute]
    returns what its handlers make of the exception, [save] is not called
    and the repository keeps the state [get_by_id] left; the heap holds the
    order as [pay] left it, that is Paid. *)
Lemma execute_charge_failure
    (oid : UUID) (w : World R G) (l : loc) (h : Heap) (r : R)
    (o o1 : Order) (amt : Money) (a : Ambient) (g : G) (e : Exn) :
  get_by_id oid (heap w, order_repository w) = (Ok (Some l), (h, r)) ->
  h !! l = Some o ->
  pay (now (ambient w)) o = (Ok tt, o1) ->
  total o1 = Ok amt ->
  charge oid amt (ambient w, payment_gateway w) = (Err e, (a, g)) ->
  execute oid w
  = (execute_except oid e,
     mkWorld a (<[l := o1]> h) r g
             (calls w ++ [CallGetById oid; CallCharge oid amt])).
Proof.
  intros Hget Hl Hpay Htotal Hcharge.
  unfold execute, execute_try, log_call, on_repository, on_gateway, on_order.
  unfold_m. simpl. rewrite Hget. simpl. rewrite Hl, Hpay. simpl.
  rewrite lookup_insert_eq, Htotal. simpl. rewrite Hcharge. simpl.
  by rewrite !insert_insert_eq, <- !app_assoc.
Qed.

End ChargeFailure.

(** ** The error taxonomy *)





(** * Further properties of the sources *)

(** ** Money arithmetic *)

Lemma Money_add_same (a b : Money) :
  currency a = currency b -> (0 ≤ amount a + amount b)%Qc ->
  Money_add a b = Ok (mkMoney (amount a + amount b)%Qc (currency a)).
Proof.
  intros Hc Hs. unfold Money_add.
  rewrite bool_decide_eq_true_2 by done. simpl.
  by apply Money_init_nonneg.
Qed.

(** X1: [Money.__add__] is commutative on two amounts of one currency:
    both orders return the same value or raise the same exception. *)
Theorem Money_add_comm (a b : Money) :
  currency a = currency b -> Money_add a b = Money_add b a.
Proof.
  intros Hc. unfold Money_add. rewrite <- Hc.
  rewrite !bool_decide_eq_true_2 by done. simpl.
  by rewrite (Qcplus_comm (amount b) (amount a)).
Qed.

Lemma Money_add_comm_witness :
  Money_add (usd 5025 100) (usd 2575 100)
  = Money_add (usd 2575 100) (usd 5025 100).
Proof. apply (Money_add_comm (usd 5025 100) (usd 2575 100)). reflexivity. Defined.

Lemma at_scale_nonneg (k u : Z) : 0 <= k -> 0 <= u -> (0 ≤ at_scale k u)%Qc.
Proof.
  intros Hk Hu. unfold at_scale, Qcdiv. apply Qcmult_nonneg_nonneg.
  - rewrite <- Z2Qc_inj_0. by apply (proj1 (Z2Qc_inj_le 0 u)).
  - apply Qclt_le_weak, Qcinv_pos. rewrite <- Z2Qc_inj_0.
    apply (proj1 (Z2Qc_inj_lt _ _)). by apply Z.pow_pos_nonneg.
Qed.

Lemma sum_within_precision_nonneg (xs : list Decimal) :
  sum_within_precision xs -> Forall (fun x => (0 ≤ x)%Qc) xs.
Proof.
  intros (k & Hk & Hall & _). eapply Forall_impl; [exact Hall|].
  intros x (u & Hu & ->). apply at_scale_nonneg; lia.
Qed.

(** X2: on three amounts of one currency that are whole non-negative
    numbers of units at a common number of decimal places and add up to
    less than [10^28] units, so that no sum of them is rounded,
    [Money.__add__] never raises and is associative: both groupings return
    the sum of the three in that currency, a value the context holds as it
    is. *)
Theorem Money_add_assoc (a b c : Money) :
  sum_within_precision [amount a; amount b; amount c] ->
  currency a = currency b -> currency b = currency c ->
  exists ab bc : Money,
    Money_add a b = Ok ab /\ Money_add b c = Ok bc
    /\ Money_add ab c
       = Ok (mkMoney (amount a + amount b + amount c)%Qc (currency a))
    /\ Money_add a bc
       = Ok (mkMoney (amount a + amount b + amount c)%Qc (currency a))
    /\ context_exact (amount a + amount b + amount c)%Qc.
Proof.
  intros Hfit Hab Hbc.
  pose proof (sum_within_precision_nonneg _ Hfit) as Hnn.
  apply Forall_cons in Hnn as [Ha Hnn].
  apply Forall_cons in Hnn as [Hb Hnn].
  apply Forall_cons in Hnn as [Hc _].
  exists (mkMoney (amount a + amount b)%Qc (currency a)),
         (mkMoney (amount b + amount c)%Qc (currency b)).
  split; [|split; [|split; [|split]]].
  - apply Money_add_same; [done|]. by apply Qcplus_nonneg_nonneg.
  - apply Money_add_same; [done|]. by apply Qcplus_nonneg_nonneg.
  - rewrite Money_add_same; simpl; [done|congruence|].
    repeat apply Qcplus_nonneg_nonneg; done.
  - rewrite Money_add_same; simpl; [|done|].
    + do 2 f_equal. ring.
    + repeat apply Qcplus_nonneg_nonneg; done.
  - apply sum_within_precision_exact in Hfit. simpl in Hfit.
    replace (amount a + amount b + amount c)%Qc
      with (amount a + (amount b + (amount c + 0)))%Qc by ring.
    exact Hfit.
Qed.

Lemma Money_add_assoc_witness :
  exists ab bc : Money,
    Money_add (usd 5025 100) (usd 2575 100) = Ok ab
    /\ Money_add (usd 2575 100) (usd 1 100) = Ok bc
    /\ Money_add ab (usd 1 100)
       = Ok (mkMoney (amount (usd 5025 100) + amount (usd 2575 100)
                      + amount (usd 1 100))%Qc "USD")
    /\ Money_add (usd 5025 100) bc
       = Ok (mkMoney (amount (usd 5025 100) + amount (usd 2575 100)
                      + amount (usd 1 100))%Qc "USD")
    /\ context_exact (amount (usd 5025 100) + amount (usd 2575 100)
                      + amount (usd 1 100))%Qc.
Proof.
  apply (Money_add_assoc (usd 5025 100) (usd 2575 100) (usd 1 100));
    [|reflexivity..].
  exists 2. split; [lia|]. split; [|reflexivity].
  repeat constructor.
  - exists 5025. split; [lia|]. by apply Qc_is_canon.
  - exists 2575. split; [lia|]. by apply Qc_is_canon.
  - exists 1. split; [lia|]. by apply Qc_is_canon.
Defined.

(** X3: on two amounts that are whole non-negative numbers of units at a
    common number of decimal places and add up to less than [10^28] units,
    so that their sum is neither rounded nor out of range,
    [Money.__add__] returns exactly when the two currencies are equal;
    otherwise it raises the [ValueError] that names the two currencies,
    left operand first. *)
Theorem Money_add_returns_iff_same_currency (a b : Money) :
  sum_within_precision [amount a; amount b] ->
  ((exists m, Money_add a b = Ok m) <-> currency a = currency b)
  /\ (currency a <> currency b ->
      Money_add a b
      = Err (Raise ValueError
               ("Cannot add different currencies: " +:+ currency a
                +:+ " and " +:+ currency b))).
Proof.
  intros Hfit.
  pose proof (sum_within_precision_nonneg _ Hfit) as Hnn.
  apply Forall_cons in Hnn as [Ha Hnn].
  apply Forall_cons in Hnn as [Hb _].
  split; [split|].
  - intros [m Hm]. unfold Money_add in Hm.
    by case_bool_decide.
  - intros Hc. eexists. apply Money_add_same; [done|].
    by apply Qcplus_nonneg_nonneg.
  - intros Hc. unfold Money_add. by rewrite bool_decide_eq_false_2.
Qed.

Lemma Money_add_returns_iff_same_currency_witness :
  ((exists m, Money_add (usd 100 1) (eur 100 1) = Ok m) <-> "USD" = "EUR")
  /\ ("USD" <> "EUR" ->
      Money_add (usd 100 1) (eur 100 1)
      = Err (Raise ValueError
               ("Cannot add different currencies: " +:+ "USD"
                +:+ " and " +:+ "EUR"))).
Proof.
  apply (Money_add_returns_iff_same_currency (usd 100 1) (eur 100 1)).
  exists 0. split; [lia|]. split; [|reflexivity].
  repeat constructor; exists 100; (split; [lia|]); by apply Qc_is_canon.
Defined.

(** [Money.__eq__] holds exactly for equal amount and equal currency. *)
Lemma Money_eq_spec (a b : Money) : Money_eq a b = true <-> a = b.
Proof.
  unfold Money_eq. destruct a as [x c], b as [y d]. simpl.
  rewrite andb_true_iff, !bool_decide_eq_true. split.
  - by intros [-> ->].
  - by intros [= -> ->].
Qed.

(** X4: [OrderLine.__eq__], through [Money.__eq__], holds exactly for two
    lines that agree on product id, name, price (amount and currency) and
    quantity. *)
Theorem OrderLine_eq_spec (l1 l2 : OrderLine) :
  OrderLine_eq l1 l2 = true <-> l1 = l2.
Proof.
  unfold OrderLine_eq. destruct l1 as [i1 n1 p1 q1], l2 as [i2 n2 p2 q2].
  simpl. rewrite !andb_true_iff, !bool_decide_eq_true, Money_eq_spec. split.
  - by intros [[[-> ->] ->] ->].
  - by intros [= -> -> -> ->].
Qed.

(** X5: [Money.__mul__] on a positive amount, when the exact product is a
    value the context holds as it is: for a quantity of zero or more it
    returns the product in the same currency, and for a quantity below
    zero it raises the negative-amount [ValueError]. *)
Theorem Money_mul_sign (m : Money) (q : Z) :
  (0 < amount m)%Qc ->
  context_exact (amount m * Qc_of_Z q)%Qc ->
  (0 <= q ->
   Money_mul m q = Ok (mkMoney (amount m * Qc_of_Z q)%Qc (currency m)))
  /\ (q < 0 ->
      Money_mul m q = Err (Raise ValueError "Amount cannot be negative")).
Proof.
  intros Hm _. unfold Money_mul, Decimal_of_int. split; intros Hq.
  - apply Money_init_nonneg. apply Qcmult_nonneg_nonneg.
    + by apply Qclt_le_weak.
    + rewrite <- Z2Qc_inj_0. by apply (proj1 (Z2Qc_inj_le 0 q)).
  - unfold Money_init, Decimal_ltb. rewrite bool_decide_eq_true_2; [done|].
    rewrite <- (Qcmult_0_r (amount m)).
    apply (proj1 (Qcmult_lt_mono_pos_l _ _ _ Hm)).
    rewrite <- Z2Qc_inj_0. by apply (proj1 (Z2Qc_inj_lt q 0)).
Qed.

Lemma Money_mul_sign_witness :
  Money_mul (usd 1099 100) 3 = Ok (mkMoney (dec 3297 100) "USD")
  /\ Money_mul (usd 1099 100) (-1)
     = Err (Raise ValueError "Amount cannot be negative").
Proof.
  destruct (Money_mul_sign (usd 1099 100) 3) as [H _]; [reflexivity| |].
  { exists 2, 3297. split; [lia|]. split; [reflexivity|].
    by apply Qc_is_canon. }
  destruct (Money_mul_sign (usd 1099 100) (-1)) as [_ H']; [reflexivity| |].
  { exists 2, (-1099). split; [lia|]. split; [reflexivity|].
    by apply Qc_is_canon. }
  split.
  - rewrite H by lia. do 2 f_equal; by apply Qc_is_canon.
  - apply H'. lia.
Defined.

(** ** The line operations of [Order] *)

Lemma order_eta (o : Order) :
  mkOrder (id o) (customer_id o) (lines o) (status o) (created_at o)
          (paid_at o) (_version o) = o.
Proof. by destruct o. Qed.

Lemma add_line_modifiable (pid : UUID) (name : string) (p : Money) (q : Z)
    (o : Order) :
  status o <> PAID ->
  add_line pid name p q o =
    match update_first pid (fun l => set_quantity (quantity l + q) l) (lines o)
    with
    | Some ls' => (Ok tt, bump_version (set_lines ls' o))
    | None =>
        match OrderLine_init pid name p q with
        | Ok line => (Ok tt, bump_version (set_lines (lines o ++ [line]) o))
        | Err e => (Err e, o)
        end
    end.
Proof.
  intros Hp. unfold add_line. rewrite guarded_modifiable by done.
  unfold bind at 1. unfold get at 1.
  destruct (update_first _ _ _); [done|]. unfold_m.
  by destruct (OrderLine_init _ _ _ _).
Qed.

Lemma clear_lines_modifiable (o : Order) :
  status o <> PAID ->
  clear_lines o = (Ok tt, bump_version (set_lines [] o)).
Proof.
  intros Hp. unfold clear_lines. by rewrite guarded_modifiable by done.
Qed.

Lemma filter_absent pid (ls : list OrderLine) :
  pid ∉ product_id <$> ls ->
  filter (fun l => product_id l ≠ pid) ls = ls.
Proof.
  induction ls as [|l ls IH]; [done|]. simpl. intros Hn.
  apply not_elem_of_cons in Hn as [Hne Hn].
  rewrite filter_cons_True by congruence. f_equal. by apply IH.
Qed.

Lemma filter_present_shorter pid (ls : list OrderLine) :
  pid ∈ product_id <$> ls ->
  (length (filter (fun l => product_id l ≠ pid) ls) < length ls)%nat.
Proof.
  induction ls as [|l ls IH]; simpl.
  - intros Hin. by apply elem_of_nil in Hin.
  - intros Hin. pose proof (length_filter (fun l => product_id l ≠ pid) ls).
    destruct (decide (product_id l = pid)) as [Heq|Hne].
    + rewrite filter_cons_False by (intros ?; done). lia.
    + rewrite filter_cons_True by done. simpl.
      apply elem_of_cons in Hin as [Hin|Hin]; [done|].
      specialize (IH Hin). lia.
Qed.

Lemma remove_line_absent (pid : UUID) (o : Order) :
  status o <> PAID -> pid ∉ product_ids o -> remove_line pid o = (Ok tt, o).
Proof.
  intros Hp Hn. rewrite remove_line_modifiable by done. simpl.
  rewrite filter_absent by done.
  rewrite bool_decide_eq_true_2 by done. by rewrite order_eta.
Qed.

Lemma remove_line_present (pid : UUID) (o : Order) :
  status o <> PAID -> pid ∈ product_ids o ->
  remove_line pid o
  = (Ok tt,
     mkOrder (id o) (customer_id o)
       (filter (fun l => product_id l ≠ pid) (lines o))
       (status o) (created_at o) (paid_at o) (_version o + 1)).
Proof.
  intros Hp Hin. rewrite remove_line_modifiable by done. simpl.
  pose proof (filter_present_shorter pid (lines o) Hin).
  rewrite bool_decide_eq_false_2 by lia. done.
Qed.

(** X6: a call that raises leaves the order exactly as it was, for each of
    the six operations and every order. *)
Theorem raising_call_changes_nothing (op : Op) (o o' : Order) (e : Exn) :
  run_op op o = (Err e, o') -> o' = o.
Proof.
  destruct op; unfold run_op.
  - destruct (decide (status o = PAID)) as [Hp|Hp].
    + unfold add_line. rewrite guarded_paid by done. by intros [= _ <-].
    + rewrite add_line_modifiable by done.
      by repeat case_match; intros [= _ <-].
  - destruct (decide (status o = PAID)) as [Hp|Hp].
    + unfold remove_line. rewrite guarded_paid by done. by intros [= _ <-].
    + by rewrite remove_line_modifiable by done.
  - destruct (decide (status o = PAID)) as [Hp|Hp].
    + unfold update_quantity. rewrite guarded_paid by done.
      by intros [= _ <-].
    + rewrite update_quantity_modifiable by done.
      by repeat case_match; intros [= _ <-].
  - destruct (decide (status o = PAID)) as [Hp|Hp].
    + unfold clear_lines. rewrite guarded_paid by done. by intros [= _ <-].
    + by rewrite clear_lines_modifiable by done.
  - rewrite pay_eq. by repeat case_bool_decide; intros [= _ <-].
  - rewrite cancel_eq. by case_bool_decide; intros [= _ <-].
Qed.

Lemma raising_call_changes_nothing_witness :
  sample_order = sample_order.
Proof.
  apply (raising_call_changes_nothing (UpdateQuantity "p9" 3) sample_order
           sample_order
           (Raise ValueError "Product p9 not found in order")).
  reflexivity.
Defined.

(** X7: [add_line] for a product that has a line, on an order that is not
    Paid and has one line per product: the call returns, the quantity is
    added to that line, the [name] and [price] arguments are not used, no
    line is added and the revision goes up by one. *)
Theorem add_line_existing_product
    (pid : UUID) (name : string) (p : Money) (q : Z) (o : Order) :
  status o <> PAID -> NoDup (product_ids o) -> pid ∈ product_ids o ->
  add_line pid name p q o
  = (Ok tt,
     mkOrder (id o) (customer_id o)
       ((fun l => if bool_decide (product_id l = pid)
                  then set_quantity (quantity l + q) l else l) <$> lines o)
       (status o) (created_at o) (paid_at o) (_version o + 1))
  /\ line_count (snd (add_line pid name p q o)) = line_count o
  /\ product_ids (snd (add_line pid name p q o)) = product_ids o
  /\ price <$> lines (snd (add_line pid name p q o)) = price <$> lines o
  /\ product_name <$> lines (snd (add_line pid name p q o))
     = product_name <$> lines o.
Proof.
  intros Hp Hnd Hin. rewrite add_line_modifiable by done.
  rewrite update_first_NoDup by done. simpl.
  split; [done|]. unfold line_count, product_ids. simpl.
  rewrite length_fmap, <- !list_fmap_compose.
  repeat split; apply list_fmap_ext; intros i l _; simpl;
    by case_bool_decide.
Qed.

Lemma add_line_existing_product_witness :
  quantity <$> lines (snd (add_line "p2" "Other name" (eur 1 1) 3 sample_order))
  = [1; 5]
  /\ price <$> lines (snd (add_line "p2" "Other name" (eur 1 1) 3 sample_order))
     = price <$> lines sample_order.
Proof.
  destruct (add_line_existing_product "p2" "Other name" (eur 1 1) 3
              sample_order) as (H & _ & _ & Hprice & _).
  - discriminate.
  - apply reachable_NoDup, sample_order_reachable.
  - rewrite sample_order_ids, !elem_of_cons. auto.
  - split; [by rewrite H | exact Hprice].
Defined.

(** X8: [add_line] for a product that has no line, on an order that is not
    Paid: with a positive quantity and a positive price the new line goes
    to the end and the revision goes up by one; with a quantity of zero or
    less, or a price of zero or less, [InvalidOrderLineError] is raised and
    the order is unchanged, the quantity being tested first. *)
Theorem add_line_new_product
    (pid : UUID) (name : string) (p : Money) (q : Z) (o : Order) :
  status o <> PAID -> pid ∉ product_ids o ->
  add_line pid name p q o
  = if bool_decide (q <= 0)
    then (Err (Raise InvalidOrderLineError "Quantity must be positive"), o)
    else if bool_decide (amount p ≤ 0)%Qc
    then (Err (Raise InvalidOrderLineError "Price must be positive"), o)
    else (Ok tt,
          mkOrder (id o) (customer_id o)
            (lines o ++ [mkOrderLine pid name p q])
            (status o) (created_at o) (paid_at o) (_version o + 1)).
Proof.
  intros Hp Hn. rewrite add_line_modifiable by done.
  rewrite update_first_None by done. unfold OrderLine_init, Decimal_leb.
  destruct (decide (q <= 0)) as [Hq|Hq].
  - rewrite (bool_decide_eq_true_2 (q <= 0)) by done.
    by rewrite (proj2 (Z.leb_le q 0)) by done.
  - rewrite (bool_decide_eq_false_2 (q <= 0)) by done.
    rewrite (proj2 (Z.leb_gt q 0)) by lia. by case_bool_decide.
Qed.

Lemma add_line_new_product_witness :
  add_line "p3" "Cable" (usd 500 100) 0 sample_order
  = (Err (Raise InvalidOrderLineError "Quantity must be positive"),
     sample_order)
  /\ add_line "p3" "Cable" (usd 0 1) 0 sample_order
     = (Err (Raise InvalidOrderLineError "Quantity must be positive"),
        sample_order)
  /\ add_line "p3" "Cable" (usd 0 1) 1 sample_order
     = (Err (Raise InvalidOrderLineError "Price must be positive"),
        sample_order)
  /\ product_ids (snd (add_line "p3" "Cable" (usd 500 100) 1 sample_order))
     = ["p1"; "p2"; "p3"].
Proof.
  assert ("p3" ∉ product_ids sample_order) as Hn.
  { rewrite sample_order_ids. intros Hin.
    repeat (apply elem_of_cons in Hin as [Hin|Hin]; [discriminate|]).
    by apply elem_of_nil in Hin. }
  assert (status sample_order <> PAID) as Hp by discriminate.
  split; [|split; [|split]].
  - by rewrite (add_line_new_product "p3" "Cable" (usd 500 100) 0 _ Hp Hn).
  - by rewrite (add_line_new_product "p3" "Cable" (usd 0 1) 0 _ Hp Hn).
  - by rewrite (add_line_new_product "p3" "Cable" (usd 0 1) 1 _ Hp Hn).
  - by rewrite (add_line_new_product "p3" "Cable" (usd 500 100) 1 _ Hp Hn).
Defined.

(** X9: [remove_line] on an order that is not Paid: for a product with no
    line the call returns and the order, revision included, is unchanged;
    for a product with a line every line of that product is gone, the other
    lines keep their order, and the revision goes up by one, however many
    lines went. *)
Theorem remove_line_cases (pid : UUID) (o : Order) :
  status o <> PAID ->
  (pid ∉ product_ids o -> remove_line pid o = (Ok tt, o))
  /\ (pid ∈ product_ids o ->
      remove_line pid o
      = (Ok tt,
         mkOrder (id o) (customer_id o)
           (filter (fun l => product_id l ≠ pid) (lines o))
           (status o) (created_at o) (paid_at o) (_version o + 1))
      /\ (pid ∉ product_ids (snd (remove_line pid o)))
      /\ (line_count (snd (remove_line pid o)) < line_count o)%nat).
Proof.
  intros Hp. split.
  - by apply remove_line_absent.
  - intros Hin. rewrite remove_line_present by done. simpl.
    split; [done|]. split.
    + apply filter_ids_absent.
    + by apply filter_present_shorter.
Qed.

Lemma remove_line_cases_witness :
  remove_line "p9" sample_order = (Ok tt, sample_order)
  /\ product_ids (snd (remove_line "p1" sample_order)) = ["p2"]
  /\ _version (snd (remove_line "p1" sample_order)) = 3.
Proof.
  destruct (remove_line_cases "p9" sample_order) as [H _]; [discriminate|].
  destruct (remove_line_cases "p1" sample_order) as [_ H']; [discriminate|].
  split; [|split].
  - apply H. rewrite sample_order_ids. intros Hin.
    repeat (apply elem_of_cons in Hin as [Hin|Hin]; [discriminate|]).
    by apply elem_of_nil in Hin.
  - destruct H' as [-> _]; [|reflexivity].
    rewrite sample_order_ids, !elem_of_cons. auto.
  - destruct H' as [-> _]; [|reflexivity].
    rewrite sample_order_ids, !elem_of_cons. auto.
Defined.

(** X10: [remove_line] twice is [remove_line] once: on an order that is not
    Paid the second call for the same product returns and changes nothing,
    not even the revision. *)
Theorem remove_line_twice (pid : UUID) (o : Order) :
  status o <> PAID ->
  remove_line pid (snd (remove_line pid o))
  = (Ok tt, snd (remove_line pid o)).
Proof.
  intros Hp. apply remove_line_absent.
  - by rewrite remove_line_status.
  - rewrite remove_line_modifiable by done. apply filter_ids_absent.
Qed.

Lemma remove_line_twice_witness :
  remove_line "p1" (snd (remove_line "p1" sample_order))
  = (Ok tt, snd (remove_line "p1" sample_order)).
Proof. apply (remove_line_twice "p1" sample_order). discriminate. Defined.

(** X11: [clear_lines] on an order that is not Paid empties the lines and
    adds one to the revision, also when there was no line; afterwards
    [total] is zero US dollars and [pay] raises [EmptyOrderError]. *)
Theorem clear_lines_then_pay (o : Order) (t : datetime) :
  status o <> PAID ->
  clear_lines o
  = (Ok tt,
     mkOrder (id o) (customer_id o) [] (status o) (created_at o) (paid_at o)
             (_version o + 1))
  /\ total (snd (clear_lines o)) = Ok (mkMoney 0%Qc "USD")
  /\ pay t (snd (clear_lines o))
     = (Err (Raise EmptyOrderError "Cannot pay empty order"),
        snd (clear_lines o)).
Proof.
  intros Hp. rewrite clear_lines_modifiable by done. simpl.
  split; [done|]. split; [done|]. by rewrite pay_eq.
Qed.

Lemma clear_lines_then_pay_witness :
  _version (snd (clear_lines fresh_order)) = 1
  /\ pay 7 (snd (clear_lines sample_order))
     = (Err (Raise EmptyOrderError "Cannot pay empty order"),
        snd (clear_lines sample_order)).
Proof.
  destruct (clear_lines_then_pay fresh_order 7) as (H & _ & _);
    [discriminate|].
  destruct (clear_lines_then_pay sample_order 7) as (_ & _ & H');
    [discriminate|].
  split; [by rewrite H | exact H'].
Defined.

(** ** What every sequence of operations keeps *)

Lemma update_first_Forall (P : OrderLine -> Prop) pid f
    (ls ls' : list OrderLine) :
  update_first pid f ls = Some ls' ->
  (forall l, P l -> P (f l)) -> Forall P ls -> Forall P ls'.
Proof.
  intros Hu Hf Hall. revert ls' Hu.
  induction Hall as [|l ls Hl Hall IH]; intros ls'; [done|]. simpl.
  case_bool_decide.
  - intros [= <-]. constructor; [by apply Hf | done].
  - destruct (update_first pid f ls) as [k|]; [|done].
    intros [= <-]. constructor; [done | by apply IH].
Qed.

Lemma filter_Forall (P : OrderLine -> Prop) pid (ls : list OrderLine) :
  Forall P ls -> Forall P (filter (fun l => product_id l ≠ pid) ls).
Proof.
  rewrite !Forall_forall. intros Hall l [_ Hin]%list_elem_of_filter.
  by apply Hall.
Qed.

(** A property of lines that merging, constructing and updating establish
    or keep is kept by the operation. *)
Lemma step_Forall (P : OrderLine -> Prop) (op : Op) (o : Order) :
  (forall pid name p q, op = AddLine pid name p q ->
     (forall l, P l -> P (set_quantity (quantity l + q) l))
     /\ (forall l, OrderLine_init pid name p q = Ok l -> P l)) ->
  (forall pid q, op = UpdateQuantity pid q -> 0 < q ->
     forall l, P l -> P (set_quantity q l)) ->
  Forall P (lines o) -> Forall P (lines (step op o)).
Proof.
  intros Hadd Hupd Hall.
  destruct (decide (status o = PAID)) as [Hp|Hp]; [by rewrite step_paid|].
  destruct op; unfold step, run_op.
  - destruct (Hadd _ _ _ _ eq_refl) as [Hmerge Hnew].
    rewrite add_line_modifiable by done.
    destruct (update_first _ _ _) as [ls'|] eqn:Hu; simpl.
    + by apply (update_first_Forall P _ _ _ _ Hu).
    + destruct (OrderLine_init _ _ _ _) as [line|] eqn:Hline; [|done].
      simpl. apply Forall_app. split; [done|].
      constructor; [by apply Hnew | constructor].
  - rewrite remove_line_modifiable by done. simpl. by apply filter_Forall.
  - rewrite update_quantity_modifiable by done.
    destruct (update_first _ _ _) as [ls'|] eqn:Hu; [|done].
    destruct (q <=? 0) eqn:Hq; simpl.
    + rewrite remove_line_modifiable by done. simpl. by apply filter_Forall.
    + apply (update_first_Forall P _ _ _ _ Hu); [|done].
      apply (Hupd _ _ eq_refl). by apply Z.leb_gt.
  - rewrite clear_lines_modifiable by done. simpl. constructor.
  - rewrite pay_eq. by repeat case_bool_decide.
  - rewrite cancel_eq. by case_bool_decide.
Qed.

Lemma OrderLine_init_Ok pid name p q l :
  OrderLine_init pid name p q = Ok l ->
  l = mkOrderLine pid name p q /\ 0 < q /\ (0 < amount p)%Qc.
Proof.
  unfold OrderLine_init, Decimal_leb.
  destruct (q <=? 0) eqn:Hq; [done|]. case_bool_decide as Hp; [done|].
  intros [= <-]. split; [done|]. split; [by apply Z.leb_gt|].
  by apply Qclt_nge.
Qed.

(** X12: every line of an order obtained from [Order()] through the
    operations has a price above zero: the price half of the line invariant
    holds whatever is called. *)
Theorem reachable_prices_positive (o : Order) :
  reachable o -> Forall (fun l => (0 < amount (price l))%Qc) (lines o).
Proof.
  induction 1 as [|op o _ IH]; [constructor|].
  apply step_Forall; [| |done].
  - intros pid name p q _. split; [done|].
    intros l Hl. by destruct (OrderLine_init_Ok _ _ _ _ _ Hl) as (-> & _ & Hp).
  - done.
Qed.

Lemma reachable_prices_positive_witness :
  Forall (fun l => (0 < amount (price l))%Qc)
         (lines (step (AddLine "p1" "Laptop" (usd 99999 100) (-5))
                      one_line_order)).
Proof.
  apply (reachable_prices_positive
           (step (AddLine "p1" "Laptop" (usd 99999 100) (-5)) one_line_order)).
  constructor. apply reachable_run_ops. constructor.
Defined.

(** X13: when no [add_line] call passes a quantity of zero or less, the
    operations keep both line invariants: from an order whose lines have
    positive quantity and price, every line after any such sequence has
    positive quantity and price. *)
Theorem positive_quantities_keep_lines_valid (ops : list Op) (o : Order) :
  Forall op_positive ops -> Forall line_valid (lines o) ->
  Forall line_valid (lines (run_ops ops o)).
Proof.
  intros Hops. revert o.
  induction Hops as [|op ops Hop _ IH]; intros o Hv; [done|].
  apply (IH (step op o)). apply step_Forall; [| |done].
  - intros pid name p q ->. simpl in Hop. split.
    + intros l [Hq Hp]. split; [simpl; lia | done].
    + intros l Hl.
      by destruct (OrderLine_init_Ok _ _ _ _ _ Hl) as (-> & Hq & Hp).
  - intros pid q _ Hq l [_ Hp]. by split.
Qed.

Lemma positive_quantities_keep_lines_valid_witness :
  Forall line_valid
    (lines (run_ops [AddLine "p1" "Laptop" (usd 99999 100) 1;
                     AddLine "p1" "Laptop" (usd 99999 100) 2;
                     UpdateQuantity "p1" 0;
                     AddLine "p2" "Mouse" (usd 2999 100) 2] fresh_order)).
Proof.
  apply (positive_quantities_keep_lines_valid
           [AddLine "p1" "Laptop" (usd 99999 100) 1;
            AddLine "p1" "Laptop" (usd 99999 100) 2;
            UpdateQuantity "p1" 0;
            AddLine "p2" "Mouse" (usd 2999 100) 2] fresh_order).
  - repeat constructor.
  - constructor.
Defined.

(** X14: for an order obtained from [Order()] through the operations,
    [paid_at] is set exactly when the status is Paid, and a Paid order has
    at least one line. *)
Theorem reachable_paid_invariant (o : Order) :
  reachable o ->
  (status o = PAID <-> is_Some (paid_at o))
  /\ (status o = PAID -> lines o <> []).
Proof.
  induction 1 as [|op o _ [IH1 IH2]].
  - simpl. split; [|done]. split; [done|]. by intros [? ?].
  - destruct (decide (status o = PAID)) as [Hp|Hp]; [by rewrite step_paid|].
    assert (paid_at o = None) as Hnone.
    { destruct (paid_at o) eqn:Ht; [|done]. destruct Hp. by apply IH1. }
    assert (forall o', status o' = status o -> paid_at o' = paid_at o ->
              (status o' = PAID <-> is_Some (paid_at o'))
              /\ (status o' = PAID -> lines o' <> [])) as Hsame.
    { intros o' Hs Ht. rewrite Hs, Ht, Hnone. split; [|done].
      split; [done|]. by intros [? ?]. }
    destruct op; unfold step, run_op.
    + rewrite add_line_modifiable by done.
      by repeat case_match; apply Hsame.
    + rewrite remove_line_modifiable by done. by apply Hsame.
    + rewrite update_quantity_modifiable by done.
      repeat case_match; try by apply Hsame.
      rewrite remove_line_modifiable by done. by apply Hsame.
    + rewrite clear_lines_modifiable by done. by apply Hsame.
    + rewrite pay_eq. case_bool_decide as Hl; [by apply Hsame|].
      rewrite bool_decide_eq_false_2 by done. simpl. split; [|done].
      split; [by eexists | done].
    + rewrite cancel_eq. rewrite bool_decide_eq_false_2 by done. simpl.
      rewrite Hnone. split; [|done]. split; [done|]. by intros [? ?].
Qed.

Lemma reachable_paid_invariant_witness :
  (status paid_order = PAID <-> is_Some (paid_at paid_order))
  /\ (status paid_order = PAID -> lines paid_order <> []).
Proof.
  apply (reachable_paid_invariant paid_order).
  apply reachable_run_ops. constructor.
Defined.

Lemma update_first_present pid f (ls ls' : list OrderLine) :
  update_first pid f ls = Some ls' -> pid ∈ product_id <$> ls.
Proof.
  intros Hu. destruct (decide (pid ∈ product_id <$> ls)) as [|Hn]; [done|].
  by rewrite (update_first_None pid f ls Hn) in Hu.
Qed.

(** X15: no operation changes [id], [customer_id] or [created_at], and a
    call that returns moves the revision by a fixed step: [add_line],
    [clear_lines], [pay], [cancel] and [update_quantity] with a positive
    quantity add exactly one; [update_quantity] with a quantity of zero or
    less adds exactly two, one in [remove_line] and one of its own;
    [remove_line] adds exactly one for a product that has a line and
    leaves the whole order as it was for a product that has none. *)
Theorem returning_call_bumps_revision (op : Op) (o o' : Order) :
  run_op op o = (Ok tt, o') ->
  id o' = id o /\ customer_id o' = customer_id o
  /\ created_at o' = created_at o
  /\ match op with
     | RemoveLine pid =>
         if bool_decide (pid ∈ product_ids o)
         then _version o' = _version o + 1
         else o' = o
     | UpdateQuantity _ q =>
         _version o' = _version o + (if bool_decide (q <= 0) then 2 else 1)
     | _ => _version o' = _version o + 1
     end.
Proof.
  destruct (decide (status o = PAID)) as [Hp|Hp].
  { destruct op; unfold run_op.
    - unfold add_line. by rewrite guarded_paid.
    - unfold remove_line. by rewrite guarded_paid.
    - unfold update_quantity. by rewrite guarded_paid.
    - unfold clear_lines. by rewrite guarded_paid.
    - rewrite pay_eq. case_bool_decide; [done|].
      by rewrite bool_decide_eq_true_2.
    - unfold cancel. by rewrite guarded_paid. }
  destruct op; unfold run_op.
  - rewrite add_line_modifiable by done.
    by repeat case_match; intros [= <-].
  - destruct (decide (pid ∈ product_ids o)) as [Hin|Hn].
    + rewrite remove_line_present by done. intros [= <-]. simpl.
      by rewrite bool_decide_eq_true_2.
    + rewrite remove_line_absent by done. intros [= <-].
      by rewrite bool_decide_eq_false_2.
  - rewrite update_quantity_modifiable by done.
    destruct (update_first _ _ _) as [ls'|] eqn:Hu; [|done].
    apply update_first_present in Hu.
    destruct (Z.leb_spec q 0) as [Hq|Hq].
    + rewrite remove_line_present by done. intros [= <-]. simpl.
      rewrite bool_decide_eq_true_2 by done.
      repeat split; try done. lia.
    + intros [= <-]. simpl. by rewrite bool_decide_eq_false_2 by lia.
  - rewrite clear_lines_modifiable by done. by intros [= <-].
  - rewrite pay_eq. repeat case_bool_decide; [done..|]. by intros [= <-].
  - rewrite cancel_eq. case_bool_decide; [done|]. by intros [= <-].
Qed.

Lemma returning_call_bumps_revision_witness :
  (_version sample_order = 2
   /\ _version (snd (update_quantity "p2" 0 sample_order)) = 4)
  /\ _version (snd (update_quantity "p2" 7 sample_order)) = 3
  /\ _version (snd (remove_line "p2" sample_order)) = 3
  /\ snd (remove_line "p9" sample_order) = sample_order.
Proof.
  split; [split; [reflexivity|]|split; [|split]].
  - destruct (returning_call_bumps_revision (UpdateQuantity "p2" 0)
                sample_order (snd (update_quantity "p2" 0 sample_order))
                eq_refl) as (_ & _ & _ & H).
    rewrite H. reflexivity.
  - destruct (returning_call_bumps_revision (UpdateQuantity "p2" 7)
                sample_order (snd (update_quantity "p2" 7 sample_order))
                eq_refl) as (_ & _ & _ & H).
    rewrite H. reflexivity.
  - destruct (returning_call_bumps_revision (RemoveLine "p2")
                sample_order (snd (remove_line "p2" sample_order))
                eq_refl) as (_ & _ & _ & H).
    rewrite bool_decide_eq_true_2 in H
      by (rewrite sample_order_ids, !elem_of_cons; auto).
    rewrite H. reflexivity.
  - destruct (returning_call_bumps_revision (RemoveLine "p9")
                sample_order (snd (remove_line "p9" sample_order))
                eq_refl) as (_ & _ & _ & H).
    rewrite bool_decide_eq_false_2 in H; [exact H|].
    rewrite sample_order_ids. intros Hin.
    repeat (apply elem_of_cons in Hin as [Hin|Hin]; [discriminate|]).
    by apply elem_of_nil in Hin.
Defined.

(** ** [total] along [add_line] *)

Lemma sum_of_subtotals_snoc (ls : list OrderLine) (l : OrderLine) :
  sum_of_subtotals (ls ++ [l])
  = (sum_of_subtotals ls + subtotal_amount l)%Qc.
Proof.
  induction ls as [|l' ls IH].
  - unfold sum_of_subtotals. simpl. ring.
  - simpl. rewrite !sum_of_subtotals_cons, IH. ring.
Qed.

(** The total of valid lines that are all in currency [c]. *)
Lemma total_one_currency (o : Order) (c : string) :
  Forall line_valid (lines o) ->
  Forall (fun l => currency (price l) = c) (lines o) ->
  lines o <> [] ->
  total o = Ok (mkMoney (sum_of_subtotals (lines o)) c).
Proof.
  intros Hv Hc Hne. rewrite total_valid by done.
  destruct (lines o) as [|l0 ls] eqn:Hl; [done|].
  pose proof (Forall_inv Hc) as Hc0. simpl in Hc0. rewrite Hc0.
  by rewrite first_foreign_same.
Qed.

(** X16: adding a line for a new product, in the currency of the lines
    already there, to an order that is not Paid and whose lines are valid,
    when the subtotals with the new one fit the precision of the context
    together, raises the total by [price * quantity]: the total afterwards
    is the total before plus that amount, in the currency of the price, a
    value the context holds as it is. *)
Theorem add_line_raises_total
    (pid : UUID) (name : string) (p : Money) (q : Z) (o : Order) (m : Money) :
  status o <> PAID -> pid ∉ product_ids o ->
  Forall line_valid (lines o) ->
  Forall (fun l => currency (price l) = currency p) (lines o) ->
  0 < q -> (0 < amount p)%Qc ->
  within_precision (lines o ++ [mkOrderLine pid name p q]) ->
  total o = Ok m ->
  total (snd (add_line pid name p q o))
  = Ok (mkMoney (amount m + amount p * Qc_of_Z q)%Qc (currency p))
  /\ context_exact (amount m + amount p * Qc_of_Z q)%Qc.
Proof.
  intros Hp Hn Hv Hc Hq Hpos Hfit Hm.
  assert (sum_of_subtotals (lines o ++ [mkOrderLine pid name p q])
          = (amount m + amount p * Qc_of_Z q)%Qc) as Hsum.
  { rewrite sum_of_subtotals_snoc.
    change (subtotal_amount (mkOrderLine pid name p q))
      with (amount p * Qc_of_Z q)%Qc.
    f_equal.
    destruct (lines o) as [|l0 ls] eqn:Hlo.
    - unfold total in Hm. rewrite Hlo in Hm. by injection Hm as <-.
    - rewrite (total_one_currency o (currency p)) in Hm;
        [|by rewrite Hlo..]. injection Hm as <-. by rewrite Hlo. }
  split.
  - rewrite add_line_modifiable by done. rewrite update_first_None by done.
    unfold OrderLine_init, Decimal_leb.
    rewrite (proj2 (Z.leb_gt q 0)) by lia.
    rewrite bool_decide_eq_false_2 by by apply Qclt_nge.
    simpl.
    set (o' := bump_version
                 (set_lines (lines o ++ [mkOrderLine pid name p q]) o)).
    assert (lines o' = lines o ++ [mkOrderLine pid name p q]) as Hl by done.
    rewrite (total_one_currency o' (currency p)).
    + by rewrite Hl, Hsum.
    + rewrite Hl. apply Forall_app. split; [done|]. by repeat constructor.
    + rewrite Hl. apply Forall_app. split; [done|]. by repeat constructor.
    + rewrite Hl. by destruct (lines o).
  - rewrite <- Hsum. by apply sum_within_precision_exact.
Qed.

Lemma sample_order_valid : Forall line_valid (lines sample_order).
Proof. repeat constructor. Qed.

Lemma add_line_raises_total_witness :
  total sample_order = Ok (mkMoney (dec 105997 100) "USD")
  /\ total (snd (add_line "p3" "Cable" (usd 500 100) 2 sample_order))
     = Ok (mkMoney (dec 106997 100) "USD").
Proof.
  assert (total sample_order = Ok (mkMoney (dec 105997 100) "USD")) as Ht.
  { rewrite (total_one_currency sample_order "USD");
      [| apply sample_order_valid | repeat constructor | discriminate].
    do 2 f_equal; by apply Qc_is_canon. }
  split; [exact Ht|].
  destruct (add_line_raises_total "p3" "Cable" (usd 500 100) 2 sample_order
              (mkMoney (dec 105997 100) "USD")) as [H _].
  - discriminate.
  - rewrite sample_order_ids. intros Hin.
    repeat (apply elem_of_cons in Hin as [Hin|Hin]; [discriminate|]).
    by apply elem_of_nil in Hin.
  - apply sample_order_valid.
  - repeat constructor.
  - lia.
  - reflexivity.
  - exists 2. split; [lia|]. split; [|reflexivity].
    repeat constructor.
    + exists 99999. split; [lia|]. by apply Qc_is_canon.
    + exists 5998. split; [lia|]. by apply Qc_is_canon.
    + exists 1000. split; [lia|]. by apply Qc_is_canon.
  - exact Ht.
  - rewrite H. do 2 f_equal; by apply Qc_is_canon.
Defined.

(** ** [execute] for any repository and any gateway *)

Lemma execute_except_fails (oid : UUID) (e : Exn) :
  success (execute_except oid e) = false
  /\ order_id (execute_except oid e) = Some oid
  /\ transaction_id (execute_except oid e) = None
  /\ is_Some (error (execute_except oid e)).
Proof.
  unfold execute_except. destruct (isinstance e DomainException); simpl;
    repeat split; by eexists.
Qed.

Section ExecutePaths.
Context {R G : Type} `{!OrderRepository R} `{!PaymentGateway G}.

Lemma execute_follows_a_path (oid : UUID) (w : World R G) :
  exists cs, execute_path oid w (fst (execute oid w)) (snd (execute oid w)) cs.
Proof.
  unfold execute, execute_try, log_call, on_repository, on_gateway, on_order.
  unfold_m. simpl.
  destruct (get_by_id oid (heap w, order_repository w))
    as [[[l|]|e] [h r]] eqn:Hget; simpl.
  2: { eexists. by apply path_not_found. }
  2: { eexists. by apply path_get_raises. }
  destruct (h !! l) as [o|] eqn:Hl; simpl.
  2: { eexists. by eapply path_dangling. }
  destruct (pay (now (ambient w)) o) as [[[]|e] o1] eqn:Hpay; simpl.
  2: { eexists. by eapply path_pay_raises. }
  rewrite lookup_insert_eq. simpl.
  destruct (total o1) as [amt|e] eqn:Htotal; simpl.
  2: { rewrite insert_insert_eq. eexists. by eapply path_total_raises. }
  destruct (charge oid amt (ambient w, payment_gateway w))
    as [[txn|e] [a g]] eqn:Hcharge; simpl.
  2: { rewrite insert_insert_eq, <- app_assoc. eexists.
       by eapply path_charge_raises. }
  rewrite insert_insert_eq.
  destruct (save l (<[l := o1]> h, r)) as [[[]|e] [h' r']] eqn:Hsave; simpl;
    rewrite <- !app_assoc; eexists.
  - by eapply path_success.
  - by eapply path_save_raises.
Qed.

End ExecutePaths.

Section ExecuteDiscipline.
Context {R G : Type} `{!OrderRepository R} `{!PaymentGateway G}.

(** X17: when the repository has no order for the id, [execute] returns
    the failure "Order <id> not found" without raising; [get_by_id] is the
    only call made, and ambient and gateway are untouched. *)
Theorem execute_order_not_found (oid : UUID) (w : World R G) (h : Heap) (r : R) :
  get_by_id oid (heap w, order_repository w) = (Ok None, (h, r)) ->
  execute oid w
  = (mkPaymentResult false (Some oid) None
       (Some ("Order " +:+ oid +:+ " not found")),
     mkWorld (ambient w) h r (payment_gateway w)
             (calls w ++ [CallGetById oid])).
Proof.
  intros Hget.
  unfold execute, execute_try, log_call, on_repository. unfold_m. simpl.
  by rewrite Hget.
Qed.

(** X18: whatever the repository and the gateway do, one [execute] makes
    exactly one [get_by_id], then at most one [charge], then at most one
    [save], in that order and never [save] without [charge]; it keeps the
    earlier log; and it reports success only after all three calls. *)
Theorem execute_call_discipline (oid : UUID) (w : World R G) :
  exists cs : list Call,
    calls (snd (execute oid w)) = calls w ++ cs
    /\ (call_name <$> cs = ["get_by_id"]
        \/ call_name <$> cs = ["get_by_id"; "charge"]
        \/ call_name <$> cs = ["get_by_id"; "charge"; "save"])
    /\ (success (fst (execute oid w)) = true ->
        call_name <$> cs = ["get_by_id"; "charge"; "save"]).
Proof.
  destruct (execute_follows_a_path oid w) as [cs Hpath].
  exists cs.
  destruct Hpath; simpl; (split; [done|]); (split; [by auto|]);
    try done; by destruct (execute_except_fails oid e) as [-> _].
Qed.

(** X19: the result of [execute] always carries the order id it was called
    with; a success carries a transaction id and no error, a failure
    carries an error and no transaction id. *)
Theorem execute_result_shape (oid : UUID) (w : World R G) :
  order_id (fst (execute oid w)) = Some oid
  /\ if success (fst (execute oid w))
     then is_Some (transaction_id (fst (execute oid w)))
          /\ error (fst (execute oid w)) = None
     else transaction_id (fst (execute oid w)) = None
          /\ is_Some (error (fst (execute oid w))).
Proof.
  destruct (execute_follows_a_path oid w) as [cs Hpath].
  destruct Hpath; simpl;
    try (by (split; [done|]; split; [done | by eexists]));
    try (by destruct (execute_except_fails oid e) as (-> & -> & -> & ?)).
Qed.

(** The way through [execute] that ends in success. *)
Lemma execute_success_inv (oid : UUID) (w : World R G) :
  success (fst (execute oid w)) = true ->
  exists l h r o o1 amt txn a g h' r',
    get_by_id oid (heap w, order_repository w) = (Ok (Some l), (h, r))
    /\ h !! l = Some o
    /\ pay (now (ambient w)) o = (Ok tt, o1)
    /\ total o1 = Ok amt
    /\ charge oid amt (ambient w, payment_gateway w) = (Ok txn, (a, g))
    /\ save l (<[l := o1]> h, r) = (Ok tt, (h', r'))
    /\ execute oid w
       = (mkPaymentResult true (Some oid) (Some txn) None,
          mkWorld a h' r' g
            (calls w ++ [CallGetById oid; CallCharge oid amt; CallSave l])).
Proof.
  destruct (execute_follows_a_path oid w) as [cs Hpath].
  destruct (execute oid w) as [res w'] eqn:Hex. simpl in *.
  destruct Hpath; simpl; intros Hs;
    try (match type of Hs with
         | success (execute_except _ ?x) = true =>
             destruct (execute_except_fails oid x) as [Hf _]; congruence
         end);
    try done.
  by eexists _, _, _, _, _, _, _, _, _, _, _.
Qed.

(** What [execute] does when [pay] raises. *)
Lemma execute_pay_raises
    (oid : UUID) (w : World R G) (l : loc) (h : Heap) (r : R)
    (o o' : Order) (e : Exn) :
  get_by_id oid (heap w, order_repository w) = (Ok (Some l), (h, r)) ->
  h !! l = Some o ->
  pay (now (ambient w)) o = (Err e, o') ->
  execute oid w
  = (execute_except oid e,
     mkWorld (ambient w) h r (payment_gateway w)
             (calls w ++ [CallGetById oid])).
Proof.
  intros Hget Hl Hpay.
  destruct (pay_raises _ _ _ _ Hpay) as [-> _].
  unfold execute, execute_try, log_call, on_repository, on_gateway, on_order.
  unfold_m. simpl. rewrite Hget. simpl. rewrite Hl, Hpay.
  by rewrite insert_id.
Qed.

End ExecuteDiscipline.

Lemma execute_order_not_found_witness :
  execute "order-9" (sample_world declining_gateway)
  = (mkPaymentResult false (Some "order-9") None
       (Some ("Order " +:+ "order-9" +:+ " not found")),
     mkWorld sample_ambient {[ 1%positive := sample_order ]}
       (mkInMemoryOrderRepository {[ "order-1" := 1%positive ]})
       declining_gateway ([] ++ [CallGetById "order-9"])).
Proof.
  apply (execute_order_not_found "order-9" (sample_world declining_gateway)
           {[ 1%positive := sample_order ]}
           (mkInMemoryOrderRepository {[ "order-1" := 1%positive ]})).
  reflexivity.
Defined.

(** ** [execute] over the in-memory repository *)

Lemma InMemory_get_by_id_eq (oid : UUID) (h : Heap)
    (r : InMemoryOrderRepository) :
  get_by_id oid (h, r) = (Ok (_orders r !! oid), (h, r)).
Proof. reflexivity. Qed.

Lemma InMemory_save_eq (l : loc) (o : Order) (h : Heap)
    (r : InMemoryOrderRepository) :
  h !! l = Some o ->
  save l (h, r)
  = (Ok tt, (h, mkInMemoryOrderRepository (<[id o := l]> (_orders r)))).
Proof.
  intros Hl. simpl. unfold InMemory_save. unfold_m. simpl. by rewrite Hl.
Qed.

Section InMemoryExecute.
Context {G : Type} `{!PaymentGateway G}.

(** The world a successful [execute] leaves over the in-memory
    repository. *)
Lemma InMemory_execute_success
    (oid : UUID) (w : World InMemoryOrderRepository G) :
  success (fst (execute oid w)) = true ->
  exists l o amt txn a g,
    _orders (order_repository w) !! oid = Some l
    /\ heap w !! l = Some o
    /\ lines o <> [] /\ status o <> PAID
    /\ execute oid w
       = (mkPaymentResult true (Some oid) (Some txn) None,
          mkWorld a
            (<[l := mkOrder (id o) (customer_id o) (lines o) PAID
                            (created_at o) (Some (now (ambient w)))
                            (_version o + 1)]> (heap w))
            (mkInMemoryOrderRepository
               (<[id o := l]> (_orders (order_repository w))))
            g
            (calls w ++ [CallGetById oid; CallCharge oid amt; CallSave l])).
Proof.
  intros Hs.
  destruct (execute_success_inv oid w Hs)
    as (l & h & r & o & o1 & amt & txn & a & g & h' & r'
        & Hget & Hl & Hpay & Htotal & Hcharge & Hsave & Hex).
  rewrite InMemory_get_by_id_eq in Hget. injection Hget as Hget <- <-.
  rewrite pay_eq in Hpay.
  case_bool_decide as Hlines; [done|]. case_bool_decide as Hp; [done|].
  injection Hpay as <-.
  rewrite (InMemory_save_eq l _ _ _ (lookup_insert_eq _ _ _)) in Hsave.
  injection Hsave as <- <-. simpl in Hex.
  by exists l, o, amt, txn, a, g.
Qed.

(** [execute] on a stored order that is Paid. *)
Lemma InMemory_execute_paid
    (oid : UUID) (l : loc) (o1 : Order) (w : World InMemoryOrderRepository G) :
  _orders (order_repository w) !! oid = Some l ->
  heap w !! l = Some o1 ->
  status o1 = PAID -> lines o1 <> [] ->
  execute oid w
  = (mkPaymentResult false (Some oid) None (Some "Order is already paid"),
     mkWorld (ambient w) (heap w) (order_repository w) (payment_gateway w)
             (calls w ++ [CallGetById oid])).
Proof.
  intros Hget Hl Hp Hlines.
  rewrite (execute_pay_raises oid w l (heap w) (order_repository w) o1 o1
             (Raise OrderAlreadyPaidError "Order is already paid")).
  - done.
  - rewrite InMemory_get_by_id_eq. by rewrite Hget.
  - done.
  - rewrite pay_eq. rewrite bool_decide_eq_false_2 by done.
    by rewrite bool_decide_eq_true_2.
Qed.

(** X21: after a successful [execute] over the in-memory repository,
    [get_by_id] for the same id returns an order that is Paid, with
    [paid_at] the time of the call, the lines it had and the revision one
    higher; the order is filed under its own [id]. *)
Theorem successful_payment_is_stored
    (oid : UUID) (w : World InMemoryOrderRepository G) :
  success (fst (execute oid w)) = true ->
  exists (l : loc) (o o1 : Order),
    heap w !! l = Some o
    /\ fst (get_by_id oid (heap (snd (execute oid w)),
                           order_repository (snd (execute oid w))))
       = Ok (Some l)
    /\ heap (snd (execute oid w)) !! l = Some o1
    /\ _orders (order_repository (snd (execute oid w))) !! id o1 = Some l
    /\ status o1 = PAID /\ paid_at o1 = Some (now (ambient w))
    /\ lines o1 = lines o /\ _version o1 = _version o + 1.
Proof.
  intros Hs.
  destruct (InMemory_execute_success oid w Hs)
    as (l & o & amt & txn & a & g & Hget & Hl & Hlines & Hp & ->).
  eexists l, o, _. simpl. split; [done|]. split.
  - f_equal.
    destruct (decide (id o = oid)) as [->|Hne].
    + by rewrite lookup_insert_eq.
    + by rewrite lookup_insert_ne.
  - split; [by rewrite lookup_insert_eq|]. simpl.
    by rewrite lookup_insert_eq.
Qed.

(** X22: a second [execute] for the same id, right after a successful one
    over the in-memory repository, returns the failure "Order is already
    paid", whatever the gateway would do: it makes the [get_by_id] call and
    no other, and leaves heap, repository, gateway and ambient as they
    were. *)
Theorem second_execute_is_rejected
    (oid : UUID) (w : World InMemoryOrderRepository G) :
  success (fst (execute oid w)) = true ->
  execute oid (snd (execute oid w))
  = (mkPaymentResult false (Some oid) None (Some "Order is already paid"),
     mkWorld (ambient (snd (execute oid w))) (heap (snd (execute oid w)))
       (order_repository (snd (execute oid w)))
       (payment_gateway (snd (execute oid w)))
       (calls (snd (execute oid w)) ++ [CallGetById oid])).
Proof.
  intros Hs.
  destruct (InMemory_execute_success oid w Hs)
    as (l & o & amt & txn & a & g & Hget & Hl & Hlines & Hp & ->).
  simpl.
  apply (InMemory_execute_paid oid l
           (mkOrder (id o) (customer_id o) (lines o) PAID (created_at o)
                    (Some (now (ambient w))) (_version o + 1)));
    simpl; [|by rewrite lookup_insert_eq|done..].
  destruct (decide (id o = oid)) as [->|Hne].
  - by rewrite lookup_insert_eq.
  - by rewrite lookup_insert_ne.
Qed.

End InMemoryExecute.

Lemma successful_payment_is_stored_witness :
  exists (l : loc) (o o1 : Order),
    heap (sample_world flaky_gateway) !! l = Some o
    /\ fst (get_by_id "order-1"
              (heap (snd (execute "order-1" (sample_world flaky_gateway))),
               order_repository
                 (snd (execute "order-1" (sample_world flaky_gateway)))))
       = Ok (Some l)
    /\ heap (snd (execute "order-1" (sample_world flaky_gateway))) !! l
       = Some o1
    /\ _orders (order_repository
                  (snd (execute "order-1" (sample_world flaky_gateway))))
         !! id o1 = Some l
    /\ status o1 = PAID
    /\ paid_at o1 = Some (now (ambient (sample_world flaky_gateway)))
    /\ lines o1 = lines o /\ _version o1 = _version o + 1.
Proof.
  apply (successful_payment_is_stored "order-1" (sample_world flaky_gateway)).
  reflexivity.
Defined.

Lemma second_execute_is_rejected_witness :
  fst (execute "order-1"
         (snd (execute "order-1" (sample_world flaky_gateway))))
  = mkPaymentResult false (Some "order-1") None (Some "Order is already paid").
Proof.
  rewrite (second_execute_is_rejected "order-1" (sample_world flaky_gateway));
    reflexivity.
Defined.

Lemma execute_charge_failure_witness :
  exists (amt : Money) (a : Ambient) (g : FakePaymentGateway) (o1 : Order),
    status o1 = PAID
    /\ execute "order-1" (sample_world declining_gateway)
       = (execute_except "order-1"
            (Raise Exception
               "Payment gateway declined transaction for order order-1"),
          mkWorld a (<[1%positive := o1]> {[ 1%positive := sample_order ]})
            (mkInMemoryOrderRepository {[ "order-1" := 1%positive ]}) g
            ([] ++ [CallGetById "order-1"; CallCharge "order-1" amt])).
Proof.
  eexists _, _, _, _. split; [|
    refine (execute_charge_failure "order-1" (sample_world declining_gateway)
              1%positive _ _ sample_order _ _ _ _ _ _ _ _ _ _);
    vm_compute; reflexivity].
  reflexivity.
Defined.

(** ** The in-memory repository *)

(** X23: [save] then [get_by_id]: saving an order that is in the heap
    returns, leaves the heap alone, and [get_by_id] for the order's own id
    then returns that very reference, whatever was stored under the id
    before; every other id reads as it did. *)
Theorem InMemory_save_then_get
    (l : loc) (o : Order) (h : Heap) (r : InMemoryOrderRepository) :
  h !! l = Some o ->
  fst (save l (h, r)) = Ok tt
  /\ fst (snd (save l (h, r))) = h
  /\ fst (get_by_id (id o) (snd (save l (h, r)))) = Ok (Some l)
  /\ forall oid, oid <> id o ->
       fst (get_by_id oid (snd (save l (h, r)))) = fst (get_by_id oid (h, r)).
Proof.
  intros Hl. rewrite (InMemory_save_eq l o) by done. cbn [fst snd].
  split; [done|]. split; [done|]. split.
  - rewrite InMemory_get_by_id_eq. cbn [fst _orders].
    by rewrite lookup_insert_eq.
  - intros oid Hne. rewrite !InMemory_get_by_id_eq. cbn [fst _orders].
    by rewrite lookup_insert_ne.
Qed.

Lemma InMemory_save_then_get_witness :
  fst (get_by_id "order-1"
         (snd (save 2%positive
                 ({[ 1%positive := fresh_order; 2%positive := sample_order ]},
                  mkInMemoryOrderRepository {[ "order-1" := 1%positive ]}))))
  = Ok (Some 2%positive).
Proof.
  destruct (InMemory_save_then_get 2%positive sample_order
              {[ 1%positive := fresh_order; 2%positive := sample_order ]}
              (mkInMemoryOrderRepository {[ "order-1" := 1%positive ]}))
    as (_ & _ & H & _); [reflexivity | exact H].
Defined.

(** X24: [delete] of an id that is stored returns [True], after which
    [get_by_id] for it returns [None], [count] is one less and every other
    id reads as before; [delete] of an id that is not stored returns
    [False] and changes nothing.  The heap is never touched. *)
Theorem InMemory_delete_cases
    (oid : UUID) (h : Heap) (r : InMemoryOrderRepository) :
  (_orders r !! oid = None ->
     InMemory_delete oid (h, r) = (Ok false, (h, r)))
  /\ (is_Some (_orders r !! oid) ->
      fst (InMemory_delete oid (h, r)) = Ok true
      /\ fst (snd (InMemory_delete oid (h, r))) = h
      /\ fst (get_by_id oid (snd (InMemory_delete oid (h, r)))) = Ok None
      /\ fst (InMemory_count (snd (InMemory_delete oid (h, r)))) 
         = Ok (Z.of_nat (size (_orders r)) - 1)
      /\ forall oid', oid' <> oid ->
           fst (get_by_id oid' (snd (InMemory_delete oid (h, r))))
           = fst (get_by_id oid' (h, r))).
Proof.
  unfold InMemory_delete, InMemory_count. unfold_m. cbn [fst snd]. split.
  - intros Hn. rewrite bool_decide_eq_false_2; [done|].
    rewrite Hn. by intros [? ?].
  - intros Hs. rewrite bool_decide_eq_true_2 by done. cbn [fst snd _orders].
    split; [done|]. split; [done|]. split; [|split].
    + rewrite InMemory_get_by_id_eq. cbn [fst _orders].
      by rewrite lookup_delete_eq.
    + rewrite map_size_delete_Some by done. f_equal.
      destruct Hs as [x Hx].
      assert (size (_orders r) <> 0%nat) as Hne.
      { intros Hz. apply map_size_empty_inv in Hz. rewrite Hz in Hx.
        by rewrite lookup_empty in Hx. }
      lia.
    + intros oid' Hne. rewrite !InMemory_get_by_id_eq. cbn [fst _orders].
      by rewrite lookup_delete_ne.
Qed.

Lemma InMemory_delete_cases_witness :
  InMemory_delete "order-9"
    ({[ 1%positive := sample_order ]},
     mkInMemoryOrderRepository {[ "order-1" := 1%positive ]})
  = (Ok false,
     ({[ 1%positive := sample_order ]},
      mkInMemoryOrderRepository {[ "order-1" := 1%positive ]}))
  /\ fst (get_by_id "order-1"
            (snd (InMemory_delete "order-1"
                    ({[ 1%positive := sample_order ]},
                     mkInMemoryOrderRepository {[ "order-1" := 1%positive ]}))))
     = Ok None.
Proof.
  split.
  - destruct (InMemory_delete_cases "order-9"
                {[ 1%positive := sample_order ]}
                (mkInMemoryOrderRepository {[ "order-1" := 1%positive ]}))
      as [H _]. apply H. reflexivity.
  - destruct (InMemory_delete_cases "order-1"
                {[ 1%positive := sample_order ]}
                (mkInMemoryOrderRepository {[ "order-1" := 1%positive ]}))
      as [_ H]. apply H. by eexists.
Defined.

(** X25: [count] follows [save] and [clear]: saving an order under an id
    that is not stored adds one to [count], saving under a stored id leaves
    it, and after [clear] it is zero and [get_by_id] returns [None] for
    every id. *)
Theorem InMemory_count_follows
    (l : loc) (o : Order) (h : Heap) (r : InMemoryOrderRepository) :
  h !! l = Some o ->
  fst (InMemory_count (snd (save l (h, r))))
  = Ok (if bool_decide (is_Some (_orders r !! id o))
        then Z.of_nat (size (_orders r))
        else Z.of_nat (size (_orders r)) + 1)
  /\ fst (InMemory_count (snd (InMemory_clear (h, r)))) = Ok 0
  /\ forall oid,
       fst (get_by_id oid (snd (InMemory_clear (h, r)))) = Ok None.
Proof.
  intros Hl. rewrite (InMemory_save_eq l o) by done.
  unfold InMemory_count, InMemory_clear. unfold_m. cbn [fst snd _orders].
  split; [|split].
  - f_equal. case_bool_decide as Hs.
    + by rewrite map_size_insert_Some.
    + rewrite map_size_insert_None; [lia|].
      destruct (_orders r !! id o) eqn:Hx; [|done]. destruct Hs. by eexists.
  - done.
  - intros oid. by rewrite InMemory_get_by_id_eq.
Qed.

Lemma InMemory_count_follows_witness :
  fst (InMemory_count
         (snd (save 1%positive
                 ({[ 1%positive := sample_order ]},
                  mkInMemoryOrderRepository ∅))))
  = Ok (if bool_decide (is_Some ((∅ : gmap UUID loc) !! id sample_order))
        then Z.of_nat (size (∅ : gmap UUID loc))
        else Z.of_nat (size (∅ : gmap UUID loc)) + 1).
Proof.
  destruct (InMemory_count_follows 1%positive sample_order
              {[ 1%positive := sample_order ]} (mkInMemoryOrderRepository ∅))
    as [H _]; [reflexivity | exact H].
Defined.

(** ** The fake gateway *)

Lemma Fake_charge_eq (oid : UUID) (amt : Money) (a : Ambient)
    (g : FakePaymentGateway) :
  Fake_charge oid amt (a, g) =
    if simulate_failure g
       && bool_decide (success_rate g < random_random a (draws a))%Qc
    then (Err (Raise Exception
                 ("Payment gateway declined transaction for order " +:+ oid)),
          (next_draw a,
           mkFakePaymentGateway (success_rate g) (simulate_failure g)
             (transactions g) (failures_count g + 1)))
    else
      let a' := if simulate_failure g then next_draw a else a in
      let txn := "TXN_" +:+ random_choices a' (draws a') in
      (Ok txn,
       (next_draw a',
        mkFakePaymentGateway (success_rate g) (simulate_failure g)
          (transactions g ++ [TransactionRecord_init oid amt txn (now a)])
          (failures_count g))).
Proof.
  unfold Fake_charge, random_draw, _generate_transaction_id. unfold_m. simpl.
  destruct g as [rate [] txs fc]; simpl; [|done].
  by case_bool_decide.
Qed.

(** X26: [charge] of the fake gateway returns a transaction id exactly
    when failures are not simulated or the number drawn is not above the
    success rate; so with [simulate_failure] off it never declines, whatever
    the rate, and with a rate of zero a draw of zero still goes through. *)
Theorem Fake_charge_returns_iff (oid : UUID) (amt : Money) (a : Ambient)
    (g : FakePaymentGateway) :
  (exists txn, fst (Fake_charge oid amt (a, g)) = Ok txn)
  <-> simulate_failure g = false
      \/ (random_random a (draws a) ≤ success_rate g)%Qc.
Proof.
  rewrite Fake_charge_eq. destruct (simulate_failure g); simpl.
  - case_bool_decide as Hd; simpl.
    + split; [by intros [? ?]|]. intros [?|Hle]; [done|].
      by apply Qcle_ngt in Hle.
    + split; [|by eexists]. intros _. right. by apply Qcle_ngt.
  - split; [by left | by eexists].
Qed.

Lemma Fake_charge_books_once_aux (oid : UUID) (amt : Money) (a : Ambient)
    (g : FakePaymentGateway) :
  let g' := snd (snd (Fake_charge oid amt (a, g))) in
  success_rate g' = success_rate g
  /\ simulate_failure g' = simulate_failure g
  /\ Z.of_nat (length (transactions g')) + failures_count g'
     = Z.of_nat (length (transactions g)) + failures_count g + 1.
Proof.
  rewrite Fake_charge_eq.
  destruct (simulate_failure g && _); simpl.
  - split; [done|]. split; [done|]. lia.
  - split; [done|]. split; [done|]. rewrite length_app. simpl. lia.
Qed.

(** X27: every [charge] of the fake gateway is booked once: either it
    returns an id that starts with "TXN_" and has appended one transaction
    with the order id, the amount, that id and the status "completed",
    leaving the failure count, or it raises the decline exception and has
    added one to the failure count, leaving the transactions.  The
    configuration is never changed. *)
Theorem Fake_charge_books_once (oid : UUID) (amt : Money) (a : Ambient)
    (g : FakePaymentGateway) :
  let g' := snd (snd (Fake_charge oid amt (a, g))) in
  success_rate g' = success_rate g
  /\ simulate_failure g' = simulate_failure g
  /\ ((exists chars : string,
         fst (Fake_charge oid amt (a, g)) = Ok ("TXN_" +:+ chars)
         /\ transactions g'
            = transactions g
              ++ [mkTransactionRecord oid amt ("TXN_" +:+ chars) (now a)
                                      "completed"]
         /\ failures_count g' = failures_count g)
      \/ (fst (Fake_charge oid amt (a, g))
          = Err (Raise Exception
                   ("Payment gateway declined transaction for order " +:+ oid))
          /\ transactions g' = transactions g
          /\ failures_count g' = failures_count g + 1)).
Proof.
  rewrite Fake_charge_eq.
  destruct (simulate_failure g && _); simpl.
  - split; [done|]. split; [done|]. by right.
  - split; [done|]. split; [done|]. left. by eexists.
Qed.

Lemma run_charges_booked (reqs : list (UUID * Money))
    (s : Ambient * FakePaymentGateway) :
  let g' := snd (run_charges reqs s) in
  success_rate g' = success_rate (snd s)
  /\ simulate_failure g' = simulate_failure (snd s)
  /\ Z.of_nat (length (transactions g')) + failures_count g'
     = Z.of_nat (length (transactions (snd s))) + failures_count (snd s)
       + Z.of_nat (length reqs).
Proof.
  revert s. induction reqs as [|[oid amt] reqs IH]; intros [a g]; simpl.
  - split; [done|]. split; [done|]. lia.
  - unfold run_charges in *. simpl.
    destruct (IH (snd (Fake_charge oid amt (a, g)))) as (Hr & Hf & Hn).
    destruct (Fake_charge_books_once_aux oid amt a g) as (Hr' & Hf' & Hn').
    rewrite Hr, Hf, Hn. split; [done|]. split; [done|]. lia.
Qed.

(** X28: the fake gateway books every [charge] exactly once: after
    [clear_history] and any number of [charge] calls, the number of
    recorded transactions plus the failure count is the number of calls,
    and success rate and failure switch are as before. *)
Theorem Fake_gateway_books_every_charge (reqs : list (UUID * Money))
    (a : Ambient) (g : FakePaymentGateway) :
  let g' := snd (run_charges reqs (snd (Fake_clear_history (a, g)))) in
  success_rate g' = success_rate g
  /\ simulate_failure g' = simulate_failure g
  /\ Z.of_nat (length (transactions g')) + failures_count g'
     = Z.of_nat (length reqs).
Proof.
  destruct (run_charges_booked reqs (snd (Fake_clear_history (a, g))))
    as (Hr & Hf & Hn).
  split; [done|]. split; [done|]. rewrite Hn. simpl. lia.
Qed.
